(** * ExifMetadataManager: reading and writing the original-filename annotation

    A shallow embedding of [src/ExifMetadataManager.ts].  The class has two
    operations:

    - [extractExifDateAndFilename] (the Reader) loads the first 64 KiB of a
      file, hands them to [piexif.load] and reads the date-taken tag and the
      [OriginalFilename: ...] line of the UserComment tag;
    - [encodeOriginalFilename] (the Writer) adds that line to the UserComment
      tag of an already parsed container, in place.

    JavaScript strings are sequences of UTF-16 code units, so they are
    modelled as [list N]; EXIF containers are JavaScript objects used as
    maps, modelled as [gmap]s.  In-place mutation of the container is
    modelled by state passing: the Writer maps the container before the call
    to the container after it. *)

From Stdlib Require Import NArith ZArith Ascii String.
From Stdlib.Strings Require Import Byte.
From stdpp Require Import gmap strings list fin_maps.

(** ** JavaScript strings *)

Module JS.

(** A string is the list of its UTF-16 code units. *)
Abbreviation jsstring := (list N).

(** A string literal of the source whose characters are all below 256. *)
Fixpoint lit (s : string) : jsstring :=
  match s with
  | EmptyString => []
  | String a s' => N_of_ascii a :: lit s'
  end.

(** ECMAScript LineTerminator: LF, CR, U+2028, U+2029. *)
Definition isLineTerminator (c : N) : bool :=
  ((c =? 0x0A) || (c =? 0x0D) || (c =? 0x2028) || (c =? 0x2029))%N.

(** ECMAScript WhiteSpace: TAB, VT, FF, the Unicode space separators of
    the Basic Multilingual Plane, NBSP and the byte order mark. *)
Definition isWhiteSpace (c : N) : bool :=
  ((c =? 0x09) || (c =? 0x0B) || (c =? 0x0C) || (c =? 0x20) || (c =? 0xA0)
   || (c =? 0x1680) || ((0x2000 <=? c) && (c <=? 0x200A))
   || (c =? 0x202F) || (c =? 0x205F) || (c =? 0x3000) || (c =? 0xFEFF))%N.

(** What [String.prototype.trim] strips and what [\s] matches:
    WhiteSpace together with LineTerminator. *)
Definition isSpace (c : N) : bool := isWhiteSpace c || isLineTerminator c.

(** [s.startsWith(p)] *)
Fixpoint startsWith (s p : jsstring) {struct p} : bool :=
  match p, s with
  | [], _ => true
  | _ :: _, [] => false
  | b :: p', a :: s' => (a =? b)%N && startsWith s' p'
  end.

(** [s.substring(n)] for a non-negative literal [n] *)
Definition substring (n : nat) (s : jsstring) : jsstring := drop n s.

(** [s.trimStart()] *)
Fixpoint trimStart (s : jsstring) : jsstring :=
  match s with
  | [] => []
  | c :: s' => if isSpace c then trimStart s' else s
  end.

(** [s.trimEnd()]: a character is kept when it is not a space or when
    something after it is kept. *)
Fixpoint trimEnd (s : jsstring) : jsstring :=
  match s with
  | [] => []
  | c :: s' =>
      match trimEnd s' with
      | [] => if isSpace c then [] else [c]
      | t => c :: t
      end
  end.

(** [s.trim()] *)
Definition trim (s : jsstring) : jsstring := trimEnd (trimStart s).

(** Puts one more character in front of the first piece of a split. *)
Definition push_front (c : N) (pieces : list jsstring) : list jsstring :=
  match pieces with
  | [] => [[c]]
  | p :: ps => (c :: p) :: ps
  end.

(** [s.split(/\r?\n/)]: the separator is a line feed, together with the
    carriage return right before it when there is one.  The regex cannot
    match the empty string, so the empty string splits into [[""]]. *)
Fixpoint split_lines (s : jsstring) : list jsstring :=
  match s with
  | [] => [[]]
  | c :: s' =>
      if (c =? 0x0A)%N then [] :: split_lines s'
      else
        match s' with
        | d :: s'' =>
            if (c =? 0x0D)%N && (d =? 0x0A)%N then [] :: split_lines s''
            else push_front c (split_lines s')
        | [] => push_front c (split_lines s')
        end
  end.

(** [s.split(sep)] for a separator [sep] of one character. *)
Fixpoint split_char (sep : N) (s : jsstring) : list jsstring :=
  match s with
  | [] => [[]]
  | c :: s' =>
      if (c =? sep)%N then [] :: split_char sep s'
      else push_front c (split_char sep s')
  end.

(** [s.replace(/x/g, y)] for single characters [x] and [y]. *)
Definition replace_char (x y : N) (s : jsstring) : jsstring :=
  map (fun c => if (c =? x)%N then y else c) s.

(** Truthiness of a string: every string but the empty one. *)
Definition nonempty (s : jsstring) : bool :=
  match s with [] => false | _ :: _ => true end.

(** *** [window.btoa]

    Base64 of a binary string; a character above 255 makes it throw. *)

Definition base64_digit (i : N) : N :=
  (if i <? 26 then 65 + i
   else if i <? 52 then 97 + (i - 26)
   else if i <? 62 then 48 + (i - 52)
   else if i =? 62 then 43 else 47)%N.

Fixpoint base64 (s : jsstring) : jsstring :=
  match s with
  | [] => []
  | [a] =>
      [base64_digit (N.shiftr a 2);
       base64_digit (N.shiftl (N.land a 3) 4); 61; 61]%N
  | [a; b] =>
      [base64_digit (N.shiftr a 2);
       base64_digit (N.lor (N.shiftl (N.land a 3) 4) (N.shiftr b 4));
       base64_digit (N.shiftl (N.land b 15) 2); 61]%N
  | a :: b :: c :: rest =>
      base64_digit (N.shiftr a 2)
      :: base64_digit (N.lor (N.shiftl (N.land a 3) 4) (N.shiftr b 4))
      :: base64_digit (N.lor (N.shiftl (N.land b 15) 2) (N.shiftr c 6))
      :: base64_digit (N.land c 63)
      :: base64 rest
  end.

End JS.

Import JS.

(** ** The regular expression of the Reader

    [/^OriginalFilename:\s*(.+)$/m], matched the way a backtracking engine
    does: the pieces below are the regex read from right to left, each one a
    matcher for a suffix of the pattern that returns the text captured by
    the group. *)

Module Regex.

(** [.*$] at the end of the pattern: the greedy star takes one more
    character that is not a line terminator while the rest still matches;
    with zero characters left to take, [$] (multiline) holds at the end of
    the input and in front of a line terminator. *)
Fixpoint dot_star_eol (s : jsstring) : option jsstring :=
  match s with
  | [] => Some []
  | c :: s' =>
      if isLineTerminator c then Some []
      else
        match dot_star_eol s' with
        | Some g => Some (c :: g)
        | None => None
        end
  end.

(** [(.+)$]: one character that is not a line terminator, then [.*$]. *)
Definition group_eol (s : jsstring) : option jsstring :=
  match s with
  | [] => None
  | c :: s' =>
      if isLineTerminator c then None
      else
        match dot_star_eol s' with
        | Some g => Some (c :: g)
        | None => None
        end
  end.

(** [\s*(.+)$]: the greedy star first takes the space in front of it and
    gives it back when the rest of the pattern fails behind it. *)
Fixpoint spaces_group_eol (s : jsstring) : option jsstring :=
  match s with
  | [] => group_eol []
  | c :: s' =>
      if isSpace c then
        match spaces_group_eol s' with
        | Some g => Some g
        | None => group_eol s
        end
      else group_eol s
  end.

(** Removes the literal [p] from the front of [s]. *)
Fixpoint literal (p s : jsstring) : option jsstring :=
  match p, s with
  | [], _ => Some s
  | _ :: _, [] => None
  | b :: p', a :: s' => if (a =? b)%N then literal p' s' else None
  end.

(** [OriginalFilename:\s*(.+)$] at the current position. *)
Definition match_here (s : jsstring) : option jsstring :=
  match literal (lit "OriginalFilename:") s with
  | Some rest => spaces_group_eol rest
  | None => None
  end.

(** The search for the first position where the pattern matches.  [bol]
    says whether [^] (multiline) holds at the current position: at the
    start of the input and behind a line terminator. *)
Fixpoint search (bol : bool) (s : jsstring) : option jsstring :=
  match (if bol then match_here s else None) with
  | Some g => Some g
  | None =>
      match s with
      | [] => None
      | c :: s' => search (isLineTerminator c) s'
      end
  end.

(** [commentText.match(/^OriginalFilename:\s*(.+)$/m)]: [None] for
    [null], otherwise element 1 of the match, the text of the group. *)
Definition match_OriginalFilename (commentText : jsstring) : option jsstring :=
  search true commentText.

End Regex.

(** ** EXIF containers *)

(** The value of a tag: a string, a number or an array of numbers. *)
Inductive value : Type :=
  | JString (s : jsstring)
  | JNumber (n : Z)
  | JArray (l : list Z).

(** A section of the container (an IFD): tag id to value. *)
Abbreviation IFD := (gmap N value).

(** [piexif.ExifDict]: section name to section. *)
Abbreviation ExifDict := (gmap string (gmap N value)).

(** Tag ids of [piexif.ExifIFD].  The source gives 37510 for UserComment in
    a comment; 36867 is DateTimeOriginal in the EXIF standard. *)
Module ExifIFD.
Definition DateTimeOriginal : N := 36867.
Definition UserComment : N := 37510.
End ExifIFD.

(** Truthiness of what a property access gives: [undefined], the empty
    string and zero are falsy, arrays are truthy. *)
Definition truthy (v : option value) : bool :=
  match v with
  | None => false
  | Some (JString s) => nonempty s
  | Some (JNumber n) => negb (n =? 0)%Z
  | Some (JArray _) => true
  end.

(** [obj?.Exif?.[tag]] *)
Definition Exif_tag (obj : ExifDict) (tag : N) : option value :=
  obj !! "Exif"%string ≫= fun exif => exif !! tag.

(** The character-set prefix [ASCII\0\0\0]. *)
Definition ASCII_prefix : jsstring := lit "ASCII" ++ [0; 0; 0]%N.

(** The decoding of UserComment, written out in both methods of the source:
<<
   let commentText = "";
   if (typeof c === "string" && c.startsWith("ASCII\0\0\0")) {
       commentText = c.substring(8);
   } else if (typeof c === "string") {
       commentText = c;
   }
>> *)
Definition decodeUserComment (c : option value) : jsstring :=
  match c with
  | Some (JString s) => if startsWith s ASCII_prefix then substring 8 s else s
  | _ => []
  end.

(** ** The Writer *)

(** [commentText.split(/\r?\n/).some(line => line.trim().startsWith("OriginalFilename"))] *)
Definition hasOriginalFilename (commentText : jsstring) : bool :=
  existsb (fun line => startsWith (trim line) (lit "OriginalFilename"))
          (split_lines commentText).

(** [encodeOriginalFilename(fileName, metadata)]: the container after the
    call.  The method has no [await] inside and returns no value, so the
    call is this state change.  [metadata] is a [piexif.ExifDict], never
    [null] or [undefined], so the [?.] on it always goes through.  A
    section is an object owned by its container, as [piexif.load] builds
    it: no two sections are the same object. *)
Definition encodeOriginalFilename (fileName : jsstring)
    (metadata : ExifDict) : ExifDict :=
  let hasOriginalMetadata := Exif_tag metadata ExifIFD.DateTimeOriginal in
  if negb (truthy hasOriginalMetadata) || negb (nonempty fileName) then metadata
  else
    let userCommentTag := ExifIFD.UserComment in
    let exif := default ∅ (metadata !! "Exif"%string) in
    let existingComment := exif !! userCommentTag in
    let commentText := decodeUserComment existingComment in
    if negb (hasOriginalFilename commentText) then
      let commentText :=
        if nonempty commentText
        then commentText ++ (10%N :: lit "OriginalFilename: ") ++ fileName
        else lit "OriginalFilename: " ++ fileName in
      let prefix := ASCII_prefix in
      <["Exif"%string := <[userCommentTag := JString (prefix ++ commentText)]> exif]> metadata
    else metadata.

(** ** The Reader *)

(** Lines 33-42 of the Reader as a function of the value of the UserComment
    tag: what [originalFileName], initially empty, holds after them. *)
Definition readOriginalFileName (userComment : option value) : jsstring :=
  match Regex.match_OriginalFilename (decodeUserComment userComment) with
  | Some group1 => trim group1
  | None => []
  end.

(** What a step of the Reader can throw: the rejection of the host's
    [readBinary], the exception of [piexif.load] on bytes that are not a
    JPEG with EXIF data, [btoa]'s InvalidCharacterError and the TypeError
    of calling a method that a value does not have. *)
Inductive js_error : Type :=
  | HostError (msg : string)
  | InvalidCharacterError
  | TypeError (msg : string).

(** The object the Reader returns; its fields are the two local variables
    of the method. *)
Record Extracted : Type := {
  dateTaken : jsstring;
  originalFileName : jsstring
}.

(** The body of the [try] block: a computation over the two local
    variables that ends with a value or with a thrown error. *)
Definition Try (A : Type) : Type := Extracted -> Extracted * (js_error + A).

Definition ret {A} (a : A) : Try A := fun vars => (vars, inr a).

Definition bind {A B} (m : Try A) (k : A -> Try B) : Try B :=
  fun vars =>
    match m vars with
    | (vars', inr a) => k a vars'
    | (vars', inl e) => (vars', inl e)
    end.

(** A call that returns or throws ([await] of a promise included). *)
Definition call {A} (r : js_error + A) : Try A := fun vars => (vars, r).

Definition set_dateTaken (v : jsstring) : Try unit :=
  fun vars => ({| dateTaken := v; originalFileName := originalFileName vars |}, inr tt).

Definition set_originalFileName (v : jsstring) : Try unit :=
  fun vars => ({| dateTaken := dateTaken vars; originalFileName := v |}, inr tt).

Declare Scope try_scope.
Delimit Scope try_scope with try.
Notation "x <- m ;; k" := (bind m (fun x => k))
  (at level 100, m at next level, k at level 200, right associativity) : try_scope.
Notation "m ;; k" := (bind m (fun _ => k))
  (at level 100, k at level 200, right associativity) : try_scope.

(** [window.btoa(binary)] *)
Definition btoa (binary : jsstring) : js_error + jsstring :=
  if forallb (fun c => c <=? 255)%N binary then inr (base64 binary)
  else inl InvalidCharacterError.

(** [exifDate.split(' ')]: only a string has the method. *)
Definition split_method (exifDate : option value) : js_error + list jsstring :=
  match exifDate with
  | Some (JString s) => inr (split_char 32 s)
  | Some _ => inl (TypeError "exifDate.split is not a function")
  | None => inl (TypeError "Cannot read properties of undefined")
  end.

(** Lines 27-42: what the Reader does with the parsed container. *)
Definition read_tags (exifObj : ExifDict) : Try unit :=
  (let exifDate := Exif_tag exifObj ExifIFD.DateTimeOriginal in
   (if truthy exifDate then
      pieces <- call (split_method exifDate) ;;
      (* [pieces[0]] is never [undefined]: a split has a first piece *)
      set_dateTaken (replace_char 58 45 (hd [] pieces))
    else ret tt) ;;
   let userCommentTag := ExifIFD.UserComment in
   let userComment := Exif_tag exifObj userCommentTag in
   let commentText := decodeUserComment userComment in
   match Regex.match_OriginalFilename commentText with
   | Some group1 => set_originalFileName (trim group1)
   | None => ret tt
   end)%try.

(** Lines 21-25: the header window and its data URL.
    [String.fromCharCode(...new Uint8Array(buf))] gives the string whose
    code units are the bytes; the engine is taken to accept the 65536
    arguments of a full window. *)
Definition headerBytes : nat := 64 * 1024.

Definition slice_header (arrayBuffer : list byte) : list byte :=
  if (headerBytes <? length arrayBuffer)%nat then take headerBytes arrayBuffer
  else arrayBuffer.

Definition fromCharCode (bytes : list byte) : jsstring := map Byte.to_N bytes.

Definition header_dataUrl (arrayBuffer : list byte) : Try jsstring :=
  (let slicedBuffer := slice_header arrayBuffer in
   let binary := fromCharCode slicedBuffer in
   base64 <- call (btoa binary) ;;
   let dataUrl := lit "data:image/jpeg;base64," ++ base64 in
   ret dataUrl)%try.

(** The data URL of a file's bytes ([btoa] does not throw on bytes). *)
Definition dataUrl_of (arrayBuffer : list byte) : jsstring :=
  lit "data:image/jpeg;base64," ++ base64 (fromCharCode (slice_header arrayBuffer)).

Section Reader.

(** The host: files and [app.vault.readBinary]. *)
Context {TFile : Type}.
Variable readBinary : TFile -> js_error + list byte.

(** The codec: [piexif.load] on a data URL. *)
Variable piexif_load : jsstring -> js_error + ExifDict.

Definition try_body (file : TFile) : Try unit :=
  (arrayBuffer <- call (readBinary file) ;;
   dataUrl <- header_dataUrl arrayBuffer ;;
   exifObj <- call (piexif_load dataUrl) ;;
   read_tags exifObj)%try.

(** [extractExifDateAndFilename(file)]: the returned object and what the
    [catch] clause passed to [console.warn], if it ran. *)
Definition extractExifDateAndFilename (file : TFile) : Extracted * option js_error :=
  let vars := {| dateTaken := []; originalFileName := [] |} in
  match try_body file vars with
  | (vars', inr _) => (vars', None)
  | (vars', inl exifErr) => (vars', Some exifErr)
  end.

End Reader.

(** The substring in front of the first occurrence of [sep], the whole
    string when there is none: the spec's reading of [split(' ')[0]]. *)
Fixpoint before_first (sep : N) (s : jsstring) : jsstring :=
  match s with
  | [] => []
  | c :: s' => if (c =? sep)%N then [] else c :: before_first sep s'
  end.

(** ** Example containers *)

Module Examples.

Definition date_2021 : value := JString (lit "2021:07:04 10:00:00").

(** A photo with its capture date and no comment. *)
Definition photo : ExifDict :=
  {[ "Exif"%string := {[ ExifIFD.DateTimeOriginal := date_2021 ]} ]}.

(** A photo with its capture date and the given UserComment. *)
Definition photo_with (comment : value) : ExifDict :=
  {[ "Exif"%string :=
       <[ExifIFD.UserComment := comment]> {[ ExifIFD.DateTimeOriginal := date_2021 ]} ]}.

(** A photo without capture date: only the 0th section has a tag
    (271 is Make). *)
Definition stripped : ExifDict :=
  {[ "0th"%string := {[ 271%N := JString (lit "Canon") ]} ]}.

(** A file whose DateTimeOriginal field is the empty string. *)
Definition blank_date : ExifDict :=
  {[ "Exif"%string := {[ ExifIFD.DateTimeOriginal := JString [] ]} ]}.

(** The same with a UserComment. *)
Definition blank_date_with (comment : value) : ExifDict :=
  {[ "Exif"%string :=
       <[ExifIFD.UserComment := comment]> {[ ExifIFD.DateTimeOriginal := JString [] ]} ]}.

Definition canon_old : jsstring :=
  ASCII_prefix ++ lit "Camera: Canon" ++ [10%N] ++ lit "OriginalFilename: old.jpg".

(** A host whose read fails, and one that gives the bytes [bs]. *)
Definition missing_file : unit -> js_error + list byte :=
  fun _ => inl (HostError "ENOENT").

Definition file_of (bs : list byte) : unit -> js_error + list byte :=
  fun _ => inr bs.

(** A codec that rejects its input, and one that gives [exifObj]. *)
Definition not_a_jpeg : jsstring -> js_error + ExifDict :=
  fun _ => inl (HostError "'load' gots invalid file data.").

Definition loads (exifObj : ExifDict)
  : jsstring -> js_error + ExifDict :=
  fun _ => inr exifObj.

Definition no_result : Extracted := {| dateTaken := []; originalFileName := [] |}.

(** Two files of 64 KiB + 1 bytes that differ in their last byte only. *)
Definition long_file (last : byte) : list byte := replicate headerBytes x00 ++ [last].

Definition two_files : bool -> js_error + list byte :=
  fun b => inr (long_file (if b then x01 else x02)).

End Examples.

(** * Properties *)

(** ** Strings *)

Section StringFacts.

Implicit Types (s p r : jsstring) (c : N).

Lemma startsWith_app p s : startsWith (p ++ s) p = true.
Proof.
  induction p as [|b p IH]; [done|].
  simpl. by rewrite N.eqb_refl, IH.
Qed.

Lemma trimEnd_keep c s : isSpace c = false -> trimEnd (c :: s) = c :: trimEnd s.
Proof. intros Hc. simpl. rewrite Hc. by destruct (trimEnd s). Qed.

Lemma trimEnd_keep_all p s :
  forallb (fun c => negb (isSpace c)) p = true ->
  trimEnd (p ++ s) = p ++ trimEnd s.
Proof.
  induction p as [|c p IH]; [done|].
  simpl forallb. intros [Hc Hp]%andb_true_iff.
  apply negb_true_iff in Hc.
  change ((c :: p) ++ s) with (c :: (p ++ s)).
  by rewrite trimEnd_keep, IH.
Qed.

Lemma split_lines_cons c s :
  split_lines (c :: s) =
  if (c =? 10)%N then [] :: split_lines s
  else match s with
       | d :: s'' =>
           if (c =? 13)%N && (d =? 10)%N then [] :: split_lines s''
           else push_front c (split_lines s)
       | [] => push_front c (split_lines s)
       end.
Proof. reflexivity. Qed.

Lemma split_lines_plain c s :
  (c =? 10)%N = false -> (c =? 13)%N = false ->
  split_lines (c :: s) = push_front c (split_lines s).
Proof.
  intros H10 H13. rewrite split_lines_cons, H10, H13. by destruct s.
Qed.

Lemma split_lines_first s : exists l ls, split_lines s = l :: ls.
Proof.
  remember (length s) as n eqn:Hn.
  revert s Hn. induction n as [n IH] using lt_wf_ind. intros s ->.
  destruct s as [|c s]; [by eexists _, _|].
  rewrite split_lines_cons.
  destruct (c =? 10)%N; [by eexists _, _|].
  destruct (IH (length s)) with (s := s) as (l & ls & Hs); [simpl; lia | done |].
  destruct s as [|d s'']; [rewrite Hs; by eexists _, _|].
  destruct ((c =? 13)%N && (d =? 10)%N); [by eexists _, _|].
  rewrite Hs. by eexists _, _.
Qed.

Lemma split_char_first sep s : exists l ls, split_char sep s = l :: ls.
Proof.
  induction s as [|c s (l & ls & IH)]; [by eexists _, _|].
  simpl. destruct (c =? sep)%N; [by eexists _, _|].
  rewrite IH. by eexists _, _.
Qed.

(** A run of characters without CR and LF stays in the first line. *)
Lemma split_lines_plain_prefix p s :
  forallb (fun c => negb (c =? 10)%N && negb (c =? 13)%N) p = true ->
  exists t ls, split_lines (p ++ s) = (p ++ t) :: ls.
Proof.
  induction p as [|c p IH].
  - intros _. apply split_lines_first.
  - simpl forallb. intros [[H10 H13]%andb_true_iff Hp]%andb_true_iff.
    apply negb_true_iff in H10, H13.
    destruct (IH Hp) as (t & ls & Hs).
    change ((c :: p) ++ s) with (c :: (p ++ s)).
    rewrite split_lines_plain, Hs by done. by eexists _, _.
Qed.

Lemma tl_push_front c (pieces : list jsstring) :
  tl (push_front c pieces) = tl pieces.
Proof. by destruct pieces. Qed.

Lemma existsb_tl {A} (P : A -> bool) (l : list A) :
  existsb P (tl l) = true -> existsb P l = true.
Proof. destruct l; [done|]. simpl. intros ->. apply orb_true_r. Qed.

(** Whatever stands in front of a line feed, the lines behind it are
    lines of the whole text. *)
Lemma split_lines_after_lf (P : jsstring -> bool) r :
  existsb P (split_lines r) = true ->
  forall n s, (length s <= n)%nat ->
    existsb P (tl (split_lines (s ++ 10%N :: r))) = true.
Proof.
  intros Hr. induction n as [|n IH]; intros s Hlen.
  - destruct s; [exact Hr | simpl in Hlen; lia].
  - destruct s as [|a s]; [exact Hr|].
    simpl in Hlen.
    change ((a :: s) ++ 10%N :: r) with (a :: (s ++ 10%N :: r)).
    rewrite split_lines_cons.
    destruct (a =? 10)%N.
    { change (tl ([] :: ?l)) with l. apply existsb_tl, IH. lia. }
    destruct s as [|d s'].
    { change ([] ++ 10%N :: r) with (10%N :: r). cbv iota.
      rewrite N.eqb_refl, andb_true_r.
      destruct (a =? 13)%N; [exact Hr|].
      rewrite tl_push_front. exact Hr. }
    change ((d :: s') ++ 10%N :: r) with (d :: (s' ++ 10%N :: r)). cbv iota.
    destruct ((a =? 13)%N && (d =? 10)%N).
    { change (tl ([] :: ?l)) with l. apply existsb_tl, IH. simpl in Hlen. lia. }
    rewrite tl_push_front.
    change (d :: (s' ++ 10%N :: r)) with ((d :: s') ++ 10%N :: r).
    apply IH. lia.
Qed.

End StringFacts.

(** ** The Writer *)

Section WriterFacts.

Implicit Types (metadata : ExifDict) (exif : IFD).
Implicit Types (fileName text : jsstring).

Lemma decodeUserComment_prefixed text :
  decodeUserComment (Some (JString (ASCII_prefix ++ text))) = text.
Proof. unfold decodeUserComment. by rewrite startsWith_app. Qed.

Lemma section_lookup metadata tag :
  default ∅ (metadata !! "Exif"%string) !! tag = Exif_tag metadata tag.
Proof. unfold Exif_tag. by destruct (metadata !! "Exif"%string). Qed.

Lemma Exif_tag_insert metadata exif tag :
  Exif_tag (<["Exif"%string := exif]> metadata) tag = exif !! tag.
Proof. unfold Exif_tag. by rewrite lookup_insert_eq. Qed.

(** A line that begins with the label is recognised by the presence test. *)
Lemma label_line_recognised text :
  startsWith (trim (lit "OriginalFilename" ++ text)) (lit "OriginalFilename") = true.
Proof.
  unfold trim.
  change (trimStart (lit "OriginalFilename" ++ text))
    with (lit "OriginalFilename" ++ text).
  rewrite trimEnd_keep_all by reflexivity. apply startsWith_app.
Qed.

Lemma hasOriginalFilename_sole fileName :
  hasOriginalFilename (lit "OriginalFilename: " ++ fileName) = true.
Proof.
  unfold hasOriginalFilename.
  destruct (split_lines_plain_prefix (lit "OriginalFilename: ") fileName)
    as (t & ls & ->); [reflexivity|].
  cbn [existsb].
  change (lit "OriginalFilename: " ++ t)
    with (lit "OriginalFilename" ++ (lit ": " ++ t)).
  by rewrite label_line_recognised.
Qed.

Lemma hasOriginalFilename_appended text fileName :
  hasOriginalFilename (text ++ (10%N :: lit "OriginalFilename: ") ++ fileName) = true.
Proof.
  unfold hasOriginalFilename.
  apply existsb_tl.
  change ((10%N :: lit "OriginalFilename: ") ++ fileName)
    with (10%N :: (lit "OriginalFilename: " ++ fileName)).
  apply split_lines_after_lf with (n := length text); [|done].
  apply hasOriginalFilename_sole.
Qed.

(** The three ways through the Writer. *)
Lemma encode_guarded fileName metadata :
  truthy (Exif_tag metadata ExifIFD.DateTimeOriginal) = false \/ fileName = [] ->
  encodeOriginalFilename fileName metadata = metadata.
Proof.
  unfold encodeOriginalFilename. intros [-> | ->]; [done|].
  by rewrite orb_true_r.
Qed.

Lemma encode_present fileName metadata :
  hasOriginalFilename (decodeUserComment (Exif_tag metadata ExifIFD.UserComment)) = true ->
  encodeOriginalFilename fileName metadata = metadata.
Proof.
  unfold encodeOriginalFilename. intros H.
  rewrite section_lookup, H. simpl. by destruct (_ || _).
Qed.

Lemma encode_writes fileName metadata :
  truthy (Exif_tag metadata ExifIFD.DateTimeOriginal) = true ->
  nonempty fileName = true ->
  hasOriginalFilename (decodeUserComment (Exif_tag metadata ExifIFD.UserComment)) = false ->
  encodeOriginalFilename fileName metadata =
  let text := decodeUserComment (Exif_tag metadata ExifIFD.UserComment) in
  <["Exif"%string :=
      <[ExifIFD.UserComment :=
          JString (ASCII_prefix ++
                   if nonempty text
                   then text ++ (10%N :: lit "OriginalFilename: ") ++ fileName
                   else lit "OriginalFilename: " ++ fileName)]>
        (default ∅ (metadata !! "Exif"%string))]> metadata.
Proof.
  unfold encodeOriginalFilename. intros -> -> H.
  by rewrite section_lookup, H.
Qed.

(** The cases of the Writer, for proofs by cases. *)
Lemma encode_cases fileName metadata :
  encodeOriginalFilename fileName metadata = metadata \/
  exists text,
    hasOriginalFilename text = true /\
    encodeOriginalFilename fileName metadata =
    <["Exif"%string :=
        <[ExifIFD.UserComment := JString (ASCII_prefix ++ text)]>
          (default ∅ (metadata !! "Exif"%string))]> metadata.
Proof.
  destruct (truthy (Exif_tag metadata ExifIFD.DateTimeOriginal)) eqn:Hd;
    [|left; apply encode_guarded; by left].
  destruct (nonempty fileName) eqn:Hf;
    [|left; apply encode_guarded; right; by destruct fileName].
  destruct (hasOriginalFilename
              (decodeUserComment (Exif_tag metadata ExifIFD.UserComment))) eqn:Hh;
    [left; by apply encode_present|].
  right. rewrite encode_writes by done. cbv zeta.
  eexists. split; [|reflexivity].
  destruct (nonempty (decodeUserComment _));
    [apply hasOriginalFilename_appended | apply hasOriginalFilename_sole].
Qed.

End WriterFacts.

(** ** Claims about the Writer *)

(** C4. No-op guarantee: with the empty filename, or on a container whose
    Exif section lacks the date-taken tag (or that has no Exif section),
    the Writer leaves the whole container, and so its UserComment tag, as
    it was. *)
Theorem encode_noop_without_filename_or_date fileName
    (metadata : ExifDict) :
  fileName = [] \/ Exif_tag metadata ExifIFD.DateTimeOriginal = None ->
  encodeOriginalFilename fileName metadata = metadata /\
  Exif_tag (encodeOriginalFilename fileName metadata) ExifIFD.UserComment =
  Exif_tag metadata ExifIFD.UserComment.
Proof.
  intros H.
  assert (encodeOriginalFilename fileName metadata = metadata) as ->; [|done].
  apply encode_guarded. destruct H as [-> | ->]; [by right | by left].
Qed.

Lemma encode_noop_without_filename_or_date_witness :
  encodeOriginalFilename [] Examples.photo = Examples.photo /\
  encodeOriginalFilename (lit "IMG_0001.jpg") Examples.stripped = Examples.stripped.
Proof.
  split.
  - apply (encode_noop_without_filename_or_date [] Examples.photo).
    left. reflexivity.
  - apply (encode_noop_without_filename_or_date (lit "IMG_0001.jpg") Examples.stripped).
    right. vm_compute. reflexivity.
Defined.

(** C5. Preserve-first: on a container whose UserComment is
    ["ASCII\0\0\0Camera: Canon\nOriginalFilename: old.jpg"] the Writer
    called with ["new.jpg"] changes nothing; in general, when a line of the
    decoded comment already carries the label, the Writer changes nothing
    whatever filename it is given, so a recorded value is never updated. *)
Theorem encode_keeps_recorded_filename fileName
    (metadata : ExifDict) :
  (Exif_tag metadata ExifIFD.UserComment = Some (JString Examples.canon_old) ->
   encodeOriginalFilename (lit "new.jpg") metadata = metadata) /\
  (hasOriginalFilename (decodeUserComment (Exif_tag metadata ExifIFD.UserComment)) = true ->
   encodeOriginalFilename fileName metadata = metadata).
Proof.
  split.
  - intros H. apply encode_present. rewrite H. vm_compute. reflexivity.
  - apply encode_present.
Qed.

Lemma encode_keeps_recorded_filename_witness :
  encodeOriginalFilename (lit "new.jpg") (Examples.photo_with (JString Examples.canon_old))
  = Examples.photo_with (JString Examples.canon_old) /\
  encodeOriginalFilename (lit "b.jpg") (Examples.photo_with (JString Examples.canon_old))
  = Examples.photo_with (JString Examples.canon_old).
Proof.
  split.
  - apply (proj1 (encode_keeps_recorded_filename (lit "new.jpg")
                    (Examples.photo_with (JString Examples.canon_old)))).
    vm_compute. reflexivity.
  - apply (proj2 (encode_keeps_recorded_filename (lit "b.jpg")
                    (Examples.photo_with (JString Examples.canon_old)))).
    vm_compute. reflexivity.
Defined.

(** C9. Write frame: the Writer leaves every section other than ["Exif"]
    and every tag of the Exif section other than UserComment as they
    were. *)
Theorem encode_frame fileName (metadata : ExifDict)
    (name : string) (tag : N) :
  name <> "Exif"%string -> tag <> ExifIFD.UserComment ->
  encodeOriginalFilename fileName metadata !! name = metadata !! name /\
  Exif_tag (encodeOriginalFilename fileName metadata) tag = Exif_tag metadata tag.
Proof.
  intros Hname Htag.
  destruct (encode_cases fileName metadata) as [-> | (text & _ & ->)]; [done|].
  split.
  - by rewrite lookup_insert_ne.
  - rewrite Exif_tag_insert, lookup_insert_ne by done. apply section_lookup.
Qed.

Lemma encode_frame_witness :
  encodeOriginalFilename (lit "IMG_0001.jpg") Examples.photo !! "0th"%string
  = Examples.photo !! "0th"%string /\
  Exif_tag (encodeOriginalFilename (lit "IMG_0001.jpg") Examples.photo)
           ExifIFD.DateTimeOriginal
  = Exif_tag Examples.photo ExifIFD.DateTimeOriginal.
Proof.
  apply (encode_frame (lit "IMG_0001.jpg") Examples.photo "0th"%string
           ExifIFD.DateTimeOriginal).
  - discriminate.
  - discriminate.
Defined.

(** C2. Idempotence: a second call of the Writer with the same filename
    leaves the container, and so the UserComment value, as the first call
    left it; no second annotation line is added. *)
Theorem encode_idempotent fileName (metadata : ExifDict) :
  encodeOriginalFilename fileName (encodeOriginalFilename fileName metadata)
  = encodeOriginalFilename fileName metadata /\
  Exif_tag (encodeOriginalFilename fileName (encodeOriginalFilename fileName metadata))
           ExifIFD.UserComment
  = Exif_tag (encodeOriginalFilename fileName metadata) ExifIFD.UserComment.
Proof.
  assert (encodeOriginalFilename fileName (encodeOriginalFilename fileName metadata)
          = encodeOriginalFilename fileName metadata) as ->; [|done].
  destruct (encode_cases fileName metadata) as [Hsame | (text & Htext & Hnew)].
  - by rewrite !Hsame.
  - rewrite Hnew. apply encode_present.
    by rewrite Exif_tag_insert, lookup_insert_eq, decodeUserComment_prefixed.
Qed.

(** C1, as the code has it.  Round trip: on a container whose date-taken
    tag holds a truthy value (a non-empty string, a non-zero number or an
    array) and whose UserComment tag is absent, the Writer called with
    ["IMG_0001.jpg"] stores ["ASCII\0\0\0OriginalFilename: IMG_0001.jpg"],
    and decoding that value and matching it against the Reader's regex,
    with trimming, gives ["IMG_0001.jpg"]. *)
Theorem roundtrip_IMG_0001 (metadata : ExifDict) :
  truthy (Exif_tag metadata ExifIFD.DateTimeOriginal) = true ->
  Exif_tag metadata ExifIFD.UserComment = None ->
  let stored :=
    Exif_tag (encodeOriginalFilename (lit "IMG_0001.jpg") metadata) ExifIFD.UserComment in
  stored = Some (JString (ASCII_prefix ++ lit "OriginalFilename: IMG_0001.jpg")) /\
  trim <$> Regex.match_OriginalFilename (decodeUserComment stored)
  = Some (lit "IMG_0001.jpg").
Proof.
  intros Hdate Hcomment stored.
  assert (stored = Some (JString (ASCII_prefix ++ lit "OriginalFilename: IMG_0001.jpg")))
    as Hstored.
  { unfold stored. rewrite encode_writes; [|done|done|by rewrite Hcomment].
    cbv zeta. rewrite Exif_tag_insert, lookup_insert_eq. by rewrite Hcomment. }
  split; [done|]. rewrite Hstored. vm_compute. reflexivity.
Qed.

Lemma roundtrip_IMG_0001_witness :
  trim <$> Regex.match_OriginalFilename
             (decodeUserComment
                (Exif_tag (encodeOriginalFilename (lit "IMG_0001.jpg") Examples.photo)
                          ExifIFD.UserComment))
  = Some (lit "IMG_0001.jpg").
Proof.
  apply (roundtrip_IMG_0001 Examples.photo).
  - vm_compute. reflexivity.
  - vm_compute. reflexivity.
Defined.

(** C1 as stated fails when the date-taken tag is present but holds the
    empty string: the Writer's guard tests the value for truthiness, the
    UserComment tag stays absent and the regex finds nothing. *)
Lemma roundtrip_fails_on_blank_date :
  is_Some (Exif_tag Examples.blank_date ExifIFD.DateTimeOriginal) /\
  Exif_tag Examples.blank_date ExifIFD.UserComment = None /\
  trim <$> Regex.match_OriginalFilename
             (decodeUserComment
                (Exif_tag (encodeOriginalFilename (lit "IMG_0001.jpg") Examples.blank_date)
                          ExifIFD.UserComment))
  <> Some (lit "IMG_0001.jpg").
Proof.
  split; [|split].
  - exists (JString []). vm_compute. reflexivity.
  - vm_compute. reflexivity.
  - vm_compute. discriminate.
Qed.

(** C3, as the code has it.  Prefix normalization: on a container whose
    UserComment value does not start with the prefix, whose date-taken tag
    holds a truthy value and whose decoded comment has no line that
    already begins with the label, one call of the Writer with a non-empty
    filename stores a string that starts with ["ASCII\0\0\0"]. *)
Theorem encode_normalizes_prefix fileName (metadata : ExifDict) :
  (forall s, Exif_tag metadata ExifIFD.UserComment = Some (JString s) ->
             startsWith s ASCII_prefix = false) ->
  truthy (Exif_tag metadata ExifIFD.DateTimeOriginal) = true ->
  fileName <> [] ->
  hasOriginalFilename (decodeUserComment (Exif_tag metadata ExifIFD.UserComment)) = false ->
  exists s,
    Exif_tag (encodeOriginalFilename fileName metadata) ExifIFD.UserComment
    = Some (JString s) /\
    startsWith s ASCII_prefix = true.
Proof.
  intros _ Hdate Hname Hline.
  rewrite encode_writes; [|done|by destruct fileName|done].
  cbv zeta. rewrite Exif_tag_insert, lookup_insert_eq.
  eexists. split; [reflexivity | apply startsWith_app].
Qed.

Lemma encode_normalizes_prefix_witness :
  exists s,
    Exif_tag (encodeOriginalFilename (lit "IMG_0001.jpg")
                (Examples.photo_with (JString (lit "Camera: Canon"))))
             ExifIFD.UserComment
    = Some (JString s) /\
    startsWith s ASCII_prefix = true.
Proof.
  apply (encode_normalizes_prefix (lit "IMG_0001.jpg")
           (Examples.photo_with (JString (lit "Camera: Canon")))).
  - intros s [= <-]. vm_compute. reflexivity.
  - vm_compute. reflexivity.
  - discriminate.
  - vm_compute. reflexivity.
Defined.

(** C3 as stated fails when the comment has no prefix but already has an
    annotation line: the Writer writes nothing and the stored value still
    lacks the prefix. *)
Lemma prefix_not_added_to_annotated_comment :
  let metadata := Examples.photo_with (JString (lit "OriginalFilename: a.jpg")) in
  Exif_tag metadata ExifIFD.UserComment = Some (JString (lit "OriginalFilename: a.jpg")) /\
  startsWith (lit "OriginalFilename: a.jpg") ASCII_prefix = false /\
  is_Some (Exif_tag metadata ExifIFD.DateTimeOriginal) /\
  truthy (Exif_tag metadata ExifIFD.DateTimeOriginal) = true /\
  Exif_tag (encodeOriginalFilename (lit "b.jpg") metadata) ExifIFD.UserComment
  = Some (JString (lit "OriginalFilename: a.jpg")).
Proof.
  repeat split; try (vm_compute; reflexivity).
  exists Examples.date_2021. vm_compute. reflexivity.
Qed.

(** ** The regex needs the label with its colon *)

Section RegexFacts.

Implicit Types (s p rest : jsstring).

Lemma literal_Some p s rest : Regex.literal p s = Some rest -> s = p ++ rest.
Proof.
  revert s. induction p as [|b p IH]; intros s; simpl.
  - by intros [= ->].
  - destruct s as [|a s]; [done|].
    destruct (a =? b)%N eqn:E; [|done].
    apply N.eqb_eq in E as ->. intros H. f_equal/=. by apply IH.
Qed.

Lemma search_cons bol c s :
  Regex.search bol (c :: s) =
  match (if bol then Regex.match_here (c :: s) else None) with
  | Some g => Some g
  | None => Regex.search (isLineTerminator c) s
  end.
Proof. reflexivity. Qed.

Lemma match_here_label s g :
  Regex.match_here s = Some g -> exists b, s = lit "OriginalFilename:" ++ b.
Proof.
  unfold Regex.match_here.
  destruct (Regex.literal _ s) as [rest|] eqn:E; [|done].
  intros _. exists rest. by apply literal_Some.
Qed.

Lemma search_label s : forall bol g,
  Regex.search bol s = Some g -> exists a b, s = a ++ lit "OriginalFilename:" ++ b.
Proof.
  induction s as [|c s IH]; intros bol g.
  - destruct bol; simpl; [|done].
    destruct (Regex.match_here []) eqn:E; [|done].
    intros _. apply match_here_label in E as [b ->]. by exists [], b.
  - rewrite search_cons.
    destruct (if bol then Regex.match_here (c :: s) else None) as [g'|] eqn:E.
    + intros _. destruct bol; [|done].
      apply match_here_label in E as [b ->]. by exists [], b.
    + intros (a & b & ->)%IH. by exists (c :: a), b.
Qed.

(** What the matcher returns is a match of the pattern: the group is a
    non-empty run without line terminator that ends at the end of the
    input or in front of a line terminator, behind the label and a run of
    spaces, and the label stands at the start of a line. *)
Lemma dot_star_eol_sound s g :
  Regex.dot_star_eol s = Some g ->
  exists post,
    s = g ++ post /\
    forallb (fun c => negb (isLineTerminator c)) g = true /\
    match post with [] => True | c :: _ => isLineTerminator c = true end.
Proof.
  revert g. induction s as [|c s IH]; intros g; simpl.
  - intros [= <-]. by exists [].
  - destruct (isLineTerminator c) eqn:Hc.
    + intros [= <-]. by exists (c :: s).
    + destruct (Regex.dot_star_eol s) as [g'|]; [|done].
      intros [= <-]. destruct (IH g' eq_refl) as (post & -> & Hg & Hpost).
      exists post. simpl. by rewrite Hc, Hg.
Qed.

Lemma group_eol_sound s g :
  Regex.group_eol s = Some g ->
  exists post,
    s = g ++ post /\ g <> [] /\
    forallb (fun c => negb (isLineTerminator c)) g = true /\
    match post with [] => True | c :: _ => isLineTerminator c = true end.
Proof.
  destruct s as [|c s]; simpl; [done|].
  destruct (isLineTerminator c) eqn:Hc; [done|].
  destruct (Regex.dot_star_eol s) as [g'|] eqn:E; [|done].
  intros [= <-]. apply dot_star_eol_sound in E as (post & -> & Hg & Hpost).
  exists post. simpl. by rewrite Hc, Hg.
Qed.

Lemma spaces_group_eol_sound s g :
  Regex.spaces_group_eol s = Some g ->
  exists ws post,
    s = ws ++ g ++ post /\ forallb isSpace ws = true /\ g <> [] /\
    forallb (fun c => negb (isLineTerminator c)) g = true /\
    match post with [] => True | c :: _ => isLineTerminator c = true end.
Proof.
  revert g. induction s as [|c s IH]; intros g.
  - done.
  - cbn [Regex.spaces_group_eol].
    assert (Regex.group_eol (c :: s) = Some g ->
            exists ws post,
              c :: s = ws ++ g ++ post /\ forallb isSpace ws = true /\ g <> [] /\
              forallb (fun c => negb (isLineTerminator c)) g = true /\
              match post with [] => True | c :: _ => isLineTerminator c = true end)
      as Hhere.
    { intros (post & E & ?)%group_eol_sound. by exists [], post. }
    destruct (isSpace c) eqn:Hc; [|done].
    destruct (Regex.spaces_group_eol s) as [g'|]; [|done].
    intros [= <-]. destruct (IH g' eq_refl) as (ws & post & -> & Hws & ?).
    exists (c :: ws), post. simpl. by rewrite Hc, Hws.
Qed.

Lemma search_sound s : forall bol g,
  Regex.search bol s = Some g ->
  exists pre ws post,
    s = pre ++ lit "OriginalFilename:" ++ ws ++ g ++ post /\
    match last pre with None => bol = true | Some c => isLineTerminator c = true end /\
    forallb isSpace ws = true /\ g <> [] /\
    forallb (fun c => negb (isLineTerminator c)) g = true /\
    match post with [] => True | c :: _ => isLineTerminator c = true end.
Proof.
  assert (forall s g, Regex.match_here s = Some g ->
          exists ws post,
            s = lit "OriginalFilename:" ++ ws ++ g ++ post /\
            forallb isSpace ws = true /\ g <> [] /\
            forallb (fun c => negb (isLineTerminator c)) g = true /\
            match post with [] => True | c :: _ => isLineTerminator c = true end)
    as Hhere.
  { intros s' g. unfold Regex.match_here.
    destruct (Regex.literal _ s') as [rest|] eqn:E; [|done].
    apply literal_Some in E as ->.
    intros (ws & post & -> & ?)%spaces_group_eol_sound. by exists ws, post. }
  induction s as [|c s IH]; intros bol g.
  - by destruct bol.
  - rewrite search_cons.
    destruct (if bol then Regex.match_here (c :: s) else None) as [g'|] eqn:E.
    + intros [= <-]. destruct bol; [|done].
      apply Hhere in E as (ws & post & E & ?). by exists [], ws, post.
    + intros (pre & ws & post & -> & Hpre & ?)%IH.
      exists (c :: pre), ws, post. split; [done|]. split; [|done].
      destruct pre as [|c' pre]; [done|].
      rewrite last_cons_cons.
      destruct (last (c' :: pre)) eqn:El; [done|]. by apply last_None in El.
Qed.

End RegexFacts.

(** Decides that a literal does not occur in a given text, position by
    position. *)
Ltac no_occurrence H :=
  repeat match type of H with
         | context [lit ?str] =>
             let v := eval vm_compute in (lit str) in
             change (lit str) with v in H
         end;
  cbn [app] in H;
  repeat match type of H with
         | _ = ?a ++ _ =>
             destruct a as [|? a]; [discriminate H|];
             try discriminate H; injection H as _ H
         end.

(** C8. The label without colon: a line of the decoded comment whose
    trimmed text starts with the bare label [OriginalFilename], such as
    [OriginalFilenames backup], makes the Writer change nothing, while the
    Reader's regex finds nothing in a comment in which the label with its
    colon does not occur. *)
Theorem bare_label_stops_writer fileName (metadata : ExifDict)
    (line : jsstring) :
  let text := decodeUserComment (Exif_tag metadata ExifIFD.UserComment) in
  line ∈ split_lines text ->
  startsWith (trim line) (lit "OriginalFilename") = true ->
  encodeOriginalFilename fileName metadata = metadata /\
  ((forall a b, text <> a ++ lit "OriginalFilename:" ++ b) ->
   Regex.match_OriginalFilename text = None /\
   readOriginalFileName (Exif_tag metadata ExifIFD.UserComment) = []).
Proof.
  intros text Hin Hline. split.
  - apply encode_present. unfold hasOriginalFilename.
    apply existsb_exists. exists line. split; [|done]. by apply list_elem_of_In.
  - intros Hnone.
    assert (Regex.match_OriginalFilename text = None) as Hm.
    { destruct (Regex.match_OriginalFilename text) as [g|] eqn:E; [|done].
      apply search_label in E as (a & b & E). by destruct (Hnone a b). }
    split; [done|]. unfold readOriginalFileName. fold text. by rewrite Hm.
Qed.

Lemma bare_label_stops_writer_witness :
  let metadata :=
    Examples.photo_with (JString (ASCII_prefix ++ lit "OriginalFilenames backup")) in
  encodeOriginalFilename (lit "IMG_0001.jpg") metadata = metadata /\
  Regex.match_OriginalFilename
    (decodeUserComment (Exif_tag metadata ExifIFD.UserComment)) = None /\
  readOriginalFileName (Exif_tag metadata ExifIFD.UserComment) = [].
Proof.
  intros metadata.
  destruct (bare_label_stops_writer (lit "IMG_0001.jpg") metadata
              (lit "OriginalFilenames backup")) as [Hw Hr].
  - vm_compute. apply list_elem_of_here.
  - vm_compute. reflexivity.
  - split; [exact Hw|]. apply Hr.
    intros a b H.
    assert (decodeUserComment (Exif_tag metadata ExifIFD.UserComment)
            = lit "OriginalFilenames backup") as E by (vm_compute; reflexivity).
    rewrite E in H. no_occurrence H.
Defined.

(** ** The Reader *)

Section ReaderFacts.

Context {TFile : Type}.
Variable readBinary : TFile -> js_error + list byte.
Variable piexif_load : jsstring -> js_error + ExifDict.

Local Abbreviation extract := (extractExifDateAndFilename readBinary piexif_load).
Local Abbreviation empty := {| dateTaken := []; originalFileName := [] |}.

Lemma btoa_bytes (bytes : list byte) :
  btoa (fromCharCode bytes) = inr (base64 (fromCharCode bytes)).
Proof.
  unfold btoa, fromCharCode.
  assert (forallb (fun c => c <=? 255)%N (map Byte.to_N bytes) = true) as ->; [|done].
  induction bytes as [|b bytes IH]; [done|].
  simpl. rewrite IH, andb_true_r. apply N.leb_le, Byte.to_N_bounded.
Qed.

Lemma header_dataUrl_bytes bytes vars :
  header_dataUrl bytes vars = (vars, inr (dataUrl_of bytes)).
Proof. unfold header_dataUrl, bind, call. by rewrite btoa_bytes. Qed.

Lemma hd_split_char sep s : hd [] (split_char sep s) = before_first sep s.
Proof.
  induction s as [|c s IH]; [done|].
  simpl. destruct (c =? sep)%N; [done|].
  destruct (split_char_first sep s) as (l & ls & E).
  rewrite E in *. simpl in *. by rewrite <- IH.
Qed.

(** What [read_tags] leaves in the two variables, case by case on the
    value of the date tag. *)
Lemma read_tags_string exifObj d vars :
  Exif_tag exifObj ExifIFD.DateTimeOriginal = Some (JString d) ->
  read_tags exifObj vars =
  ({| dateTaken := if nonempty d then replace_char 58 45 (before_first 32 d)
                   else dateTaken vars;
      originalFileName :=
        match Regex.match_OriginalFilename
                (decodeUserComment (Exif_tag exifObj ExifIFD.UserComment)) with
        | Some g => trim g
        | None => originalFileName vars
        end |}, inr tt).
Proof.
  intros Hd. unfold read_tags, bind, call. rewrite Hd. cbn [truthy split_method].
  destruct vars as [dt ofn].
  destruct (nonempty d); simpl; rewrite ?hd_split_char;
    by destruct (Regex.match_OriginalFilename _).
Qed.

Lemma read_tags_absent exifObj vars :
  truthy (Exif_tag exifObj ExifIFD.DateTimeOriginal) = false ->
  read_tags exifObj vars =
  ({| dateTaken := dateTaken vars;
      originalFileName :=
        match Regex.match_OriginalFilename
                (decodeUserComment (Exif_tag exifObj ExifIFD.UserComment)) with
        | Some g => trim g
        | None => originalFileName vars
        end |}, inr tt).
Proof.
  intros Hd. unfold read_tags, bind. rewrite Hd. destruct vars as [dt ofn].
  simpl. by destruct (Regex.match_OriginalFilename _).
Qed.

(** A thrown error leaves both variables as they were. *)
Lemma read_tags_throws exifObj vars vars' e :
  read_tags exifObj vars = (vars', inl e) -> vars' = vars.
Proof.
  unfold read_tags, bind, call.
  destruct (truthy _).
  - destruct (split_method _) as [e'|pieces]; [by intros [= <- _]|].
    simpl. by destruct (Regex.match_OriginalFilename _).
  - simpl. by destruct (Regex.match_OriginalFilename _).
Qed.

(** A normal end leaves in [originalFileName] what the regex found. *)
Lemma read_tags_returns exifObj vars vars' u :
  read_tags exifObj vars = (vars', inr u) ->
  originalFileName vars' =
  match Regex.match_OriginalFilename
          (decodeUserComment (Exif_tag exifObj ExifIFD.UserComment)) with
  | Some g => trim g
  | None => originalFileName vars
  end.
Proof.
  unfold read_tags, bind, call.
  destruct (truthy _); [destruct (split_method _) as [e'|pieces]; [done|]|];
    simpl; destruct (Regex.match_OriginalFilename _); by intros [= <- _].
Qed.

Lemma extract_read_error file e :
  readBinary file = inl e -> extract file = (empty, Some e).
Proof.
  intros H. unfold extractExifDateAndFilename, try_body, bind, call. by rewrite H.
Qed.

Lemma extract_load_error file bytes e :
  readBinary file = inr bytes -> piexif_load (dataUrl_of bytes) = inl e ->
  extract file = (empty, Some e).
Proof.
  intros H1 H2. unfold extractExifDateAndFilename, try_body, bind, call.
  by rewrite H1, header_dataUrl_bytes, H2.
Qed.

Lemma extract_loaded file bytes exifObj :
  readBinary file = inr bytes -> piexif_load (dataUrl_of bytes) = inr exifObj ->
  extract file =
  match read_tags exifObj empty with
  | (vars', inr _) => (vars', None)
  | (vars', inl exifErr) => (vars', Some exifErr)
  end.
Proof.
  intros H1 H2. unfold extractExifDateAndFilename, try_body, bind, call.
  by rewrite H1, header_dataUrl_bytes, H2.
Qed.

Lemma extract_throws file e :
  (extract file).2 = Some e -> (extract file).1 = empty.
Proof.
  destruct (readBinary file) as [e1|bytes] eqn:H1.
  { by rewrite (extract_read_error _ _ H1). }
  destruct (piexif_load (dataUrl_of bytes)) as [e2|exifObj] eqn:H2.
  { by rewrite (extract_load_error _ _ _ H1 H2). }
  rewrite (extract_loaded _ _ _ H1 H2).
  destruct (read_tags exifObj empty) as [vars' [e3|[]]] eqn:H3; [|done].
  intros _. simpl. by apply read_tags_throws in H3.
Qed.

(** Without a caught error, [originalFileName] is what lines 33-42 give
    for the UserComment value. *)
Lemma extract_originalFileName file bytes exifObj :
  readBinary file = inr bytes -> piexif_load (dataUrl_of bytes) = inr exifObj ->
  (extract file).2 = None ->
  originalFileName (extract file).1
  = readOriginalFileName (Exif_tag exifObj ExifIFD.UserComment).
Proof.
  intros H1 H2. rewrite (extract_loaded _ _ _ H1 H2).
  destruct (read_tags exifObj empty) as [vars' [e|u]] eqn:Ht; [done|].
  intros _. simpl. rewrite (read_tags_returns _ _ _ _ Ht).
  unfold readOriginalFileName. by destruct (Regex.match_OriginalFilename _).
Qed.

End ReaderFacts.

(** ** Claims about the Reader *)

Section ReaderClaims.

Context {TFile : Type}.
Variable readBinary : TFile -> js_error + list byte.
Variable piexif_load : jsstring -> js_error + ExifDict.

Local Abbreviation extract := (extractExifDateAndFilename readBinary piexif_load).

(** C6. Failure fallback: the Reader always returns an object (the
    function is total: every exception of the [try] block is caught), and
    whenever a step failed, be it the host's read, the codec's parse or a
    later step, both fields of the object are the empty string. *)
Theorem extract_failure_gives_empty (file : TFile) (bytes : list byte) (e : js_error) :
  (readBinary file = inl e -> extract file = (Examples.no_result, Some e)) /\
  (readBinary file = inr bytes -> piexif_load (dataUrl_of bytes) = inl e ->
   extract file = (Examples.no_result, Some e)) /\
  ((extract file).2 = Some e -> (extract file).1 = Examples.no_result).
Proof.
  split; [|split].
  - apply extract_read_error.
  - apply extract_load_error.
  - apply extract_throws.
Qed.

(** C7. Date normalization: when parsing succeeds and the date-taken tag
    holds ["2021:07:04 10:00:00"], [dateTaken] is ["2021-07-04"]; when
    it holds any string, [dateTaken] is the substring in front of the
    first space with every [':'] replaced by ['-']; when the tag is
    absent, [dateTaken] is the empty string. *)
Theorem extract_dateTaken (file : TFile) (bytes : list byte)
    (exifObj : ExifDict) (d : jsstring) :
  readBinary file = inr bytes ->
  piexif_load (dataUrl_of bytes) = inr exifObj ->
  (Exif_tag exifObj ExifIFD.DateTimeOriginal = Some Examples.date_2021 ->
   dateTaken (extract file).1 = lit "2021-07-04") /\
  (Exif_tag exifObj ExifIFD.DateTimeOriginal = Some (JString d) ->
   dateTaken (extract file).1 = replace_char 58 45 (before_first 32 d)) /\
  (Exif_tag exifObj ExifIFD.DateTimeOriginal = None ->
   dateTaken (extract file).1 = []).
Proof.
  intros H1 H2. rewrite (extract_loaded _ _ _ _ _ H1 H2).
  split; [|split]; intros Hd.
  - by rewrite (read_tags_string _ _ _ Hd).
  - rewrite (read_tags_string _ _ _ Hd). simpl. by destruct d.
  - rewrite read_tags_absent; [done | by rewrite Hd].
Qed.

(** C10, as the code has it.  A UserComment value that is not a string
    has no text: the Reader returns the empty [originalFileName] for it,
    and the Writer, given a non-empty filename and a date-taken tag with
    a truthy value, replaces it by
    ["ASCII\0\0\0OriginalFilename: <fileName>"]. *)
Theorem non_string_comment_has_no_text (file : TFile) (bytes : list byte)
    (exifObj metadata : ExifDict) (fileName : jsstring) (v : value) :
  (forall s, v <> JString s) ->
  decodeUserComment (Some v) = [] /\
  (readBinary file = inr bytes ->
   piexif_load (dataUrl_of bytes) = inr exifObj ->
   Exif_tag exifObj ExifIFD.UserComment = Some v ->
   originalFileName (extract file).1 = []) /\
  (Exif_tag metadata ExifIFD.UserComment = Some v ->
   truthy (Exif_tag metadata ExifIFD.DateTimeOriginal) = true ->
   fileName <> [] ->
   Exif_tag (encodeOriginalFilename fileName metadata) ExifIFD.UserComment
   = Some (JString (ASCII_prefix ++ lit "OriginalFilename: " ++ fileName))).
Proof.
  intros Hv.
  assert (decodeUserComment (Some v) = []) as Hdec.
  { destruct v as [s| |]; [by destruct (Hv s) | done | done]. }
  split; [done|]. split.
  - intros H1 H2 Hc. rewrite (extract_loaded _ _ _ _ _ H1 H2).
    destruct (read_tags exifObj _) as [vars' [e|u]] eqn:Ht; simpl.
    + by rewrite (read_tags_throws _ _ _ _ Ht).
    + by rewrite (read_tags_returns _ _ _ _ Ht), Hc, Hdec.
  - intros Hc Hd Hf.
    rewrite encode_writes; [|done|by destruct fileName|by rewrite Hc, Hdec].
    cbv zeta. by rewrite Exif_tag_insert, lookup_insert_eq, Hc, Hdec.
Qed.

End ReaderClaims.

Lemma extract_failure_gives_empty_witness :
  extractExifDateAndFilename Examples.missing_file Examples.not_a_jpeg tt
  = (Examples.no_result, Some (HostError "ENOENT")) /\
  extractExifDateAndFilename (Examples.file_of []) Examples.not_a_jpeg tt
  = (Examples.no_result, Some (HostError "'load' gots invalid file data.")) /\
  (extractExifDateAndFilename (Examples.file_of [])
     (Examples.loads {[ "Exif"%string := {[ ExifIFD.DateTimeOriginal := JNumber 7 ]} ]}) tt).1
  = Examples.no_result.
Proof.
  split; [|split].
  - apply (proj1 (extract_failure_gives_empty Examples.missing_file Examples.not_a_jpeg
                    tt [] (HostError "ENOENT"))).
    reflexivity.
  - apply (proj1 (proj2 (extract_failure_gives_empty (Examples.file_of [])
                           Examples.not_a_jpeg tt []
                           (HostError "'load' gots invalid file data.")))).
    + reflexivity.
    + reflexivity.
  - apply (proj2 (proj2 (extract_failure_gives_empty (Examples.file_of [])
                           (Examples.loads
                              {[ "Exif"%string := {[ ExifIFD.DateTimeOriginal := JNumber 7 ]} ]})
                           tt [] (TypeError "exifDate.split is not a function")))).
    vm_compute. reflexivity.
Defined.

Lemma extract_dateTaken_witness :
  dateTaken (extractExifDateAndFilename (Examples.file_of [])
               (Examples.loads Examples.photo) tt).1 = lit "2021-07-04" /\
  dateTaken (extractExifDateAndFilename (Examples.file_of [])
               (Examples.loads Examples.stripped) tt).1 = [].
Proof.
  split.
  - apply (proj1 (extract_dateTaken (Examples.file_of []) (Examples.loads Examples.photo)
                    tt [] Examples.photo [] eq_refl eq_refl)).
    vm_compute. reflexivity.
  - apply (proj2 (proj2 (extract_dateTaken (Examples.file_of [])
                           (Examples.loads Examples.stripped)
                           tt [] Examples.stripped [] eq_refl eq_refl))).
    vm_compute. reflexivity.
Defined.

Lemma non_string_comment_has_no_text_witness :
  originalFileName
    (extractExifDateAndFilename (Examples.file_of [])
       (Examples.loads (Examples.photo_with (JArray [65; 66]%Z))) tt).1 = [] /\
  Exif_tag (encodeOriginalFilename (lit "IMG_0001.jpg")
              (Examples.photo_with (JArray [65; 66]%Z)))
           ExifIFD.UserComment
  = Some (JString (ASCII_prefix ++ lit "OriginalFilename: " ++ lit "IMG_0001.jpg")).
Proof.
  destruct (non_string_comment_has_no_text (Examples.file_of [])
              (Examples.loads (Examples.photo_with (JArray [65; 66]%Z)))
              tt [] (Examples.photo_with (JArray [65; 66]%Z))
              (Examples.photo_with (JArray [65; 66]%Z))
              (lit "IMG_0001.jpg") (JArray [65; 66]%Z))
    as (_ & Hreader & Hwriter).
  - intros s. discriminate.
  - split.
    + apply Hreader; [reflexivity | reflexivity | vm_compute; reflexivity].
    + apply Hwriter; [vm_compute; reflexivity | vm_compute; reflexivity | discriminate].
Defined.

(** C10 as stated fails when the date-taken tag is present but holds the
    empty string: the Writer's guard stops it and the value that is not a
    string stays. *)
Lemma non_string_comment_kept_on_blank_date :
  let metadata := Examples.blank_date_with (JArray [65; 66]%Z) in
  is_Some (Exif_tag metadata ExifIFD.DateTimeOriginal) /\
  Exif_tag metadata ExifIFD.UserComment = Some (JArray [65; 66]%Z) /\
  Exif_tag (encodeOriginalFilename (lit "IMG_0001.jpg") metadata) ExifIFD.UserComment
  = Some (JArray [65; 66]%Z) /\
  Exif_tag (encodeOriginalFilename (lit "IMG_0001.jpg") metadata) ExifIFD.UserComment
  <> Some (JString (ASCII_prefix ++ lit "OriginalFilename: " ++ lit "IMG_0001.jpg")).
Proof.
  repeat split; try (vm_compute; reflexivity).
  - exists (JString []). vm_compute. reflexivity.
  - vm_compute. discriminate.
Qed.

(** ** The model on concrete inputs *)

Example btoa_Man : btoa (lit "Man") = inr (lit "TWFu").
Proof. reflexivity. Qed.

Example btoa_padding : btoa (lit "Ma") = inr (lit "TWE=") /\ btoa (lit "M") = inr (lit "TQ==").
Proof. split; reflexivity. Qed.

Example btoa_rejects_wide : btoa [0x2028%N] = inl InvalidCharacterError.
Proof. reflexivity. Qed.

Example split_lines_crlf :
  split_lines (lit "ab" ++ [13; 10]%N ++ lit "c" ++ [13]%N ++ lit "d" ++ [10; 10]%N)
  = [lit "ab"; lit "c" ++ [13]%N ++ lit "d"; []; []].
Proof. reflexivity. Qed.

Example split_lines_empty : split_lines [] = [[]].
Proof. reflexivity. Qed.

Example trim_both_ends : trim ([9; 32]%N ++ lit "a b" ++ [32; 10; 0xFEFF]%N) = lit "a b".
Proof. vm_compute. reflexivity. Qed.

(** The group stops at the end of its line and keeps its trailing spaces;
    the Reader trims them. *)
Example regex_second_line :
  Regex.match_OriginalFilename
    (lit "Camera: Canon" ++ [10]%N ++ lit "OriginalFilename: old.jpg  " ++ [10]%N ++ lit "x")
  = Some (lit "old.jpg  ").
Proof. vm_compute. reflexivity. Qed.

(** [\s*] gives back a space when nothing is left for the group. *)
Example regex_gives_back : Regex.match_OriginalFilename (lit "OriginalFilename:  ") = Some (lit " ").
Proof. vm_compute. reflexivity. Qed.

(** [\s*] runs over a line break. *)
Example regex_next_line :
  Regex.match_OriginalFilename (lit "OriginalFilename:" ++ [10]%N ++ lit " a.jpg") = Some (lit "a.jpg").
Proof. vm_compute. reflexivity. Qed.

(** [^] needs the start of a line. *)
Example regex_mid_line : Regex.match_OriginalFilename (lit " OriginalFilename: a.jpg") = None.
Proof. vm_compute. reflexivity. Qed.

(** The Writer appends to a comment without touching its text. *)
Example encode_appends :
  Exif_tag (encodeOriginalFilename (lit "IMG_0001.jpg")
              (Examples.photo_with (JString (lit "Camera: Canon"))))
           ExifIFD.UserComment
  = Some (JString (ASCII_prefix ++ lit "Camera: Canon" ++ [10]%N
                   ++ lit "OriginalFilename: IMG_0001.jpg")).
Proof. vm_compute. reflexivity. Qed.

(** The Reader on a container that the Writer has annotated. *)
Example extract_annotated :
  extractExifDateAndFilename (Examples.file_of [])
    (Examples.loads (encodeOriginalFilename (lit "IMG_0001.jpg") Examples.photo)) tt
  = ({| dateTaken := lit "2021-07-04"; originalFileName := lit "IMG_0001.jpg" |}, None).
Proof. vm_compute. reflexivity. Qed.

(** A date that is not a string makes [split] throw before anything is
    assigned. *)
Example extract_numeric_date :
  extractExifDateAndFilename (Examples.file_of [])
    (Examples.loads {[ "Exif"%string :=
                         <[ExifIFD.UserComment := JString (lit "OriginalFilename: a.jpg")]>
                           {[ ExifIFD.DateTimeOriginal := JNumber 7 ]} ]}) tt
  = (Examples.no_result, Some (TypeError "exifDate.split is not a function")).
Proof. vm_compute. reflexivity. Qed.

(** * Further properties of the Writer *)

Section WriterMore.

Implicit Types (metadata : ExifDict) (fileName other text : jsstring).

(** The text that a call leaves in the comment, by cases. *)
Lemma encode_text fileName metadata :
  let old := decodeUserComment (Exif_tag metadata ExifIFD.UserComment) in
  encodeOriginalFilename fileName metadata = metadata \/
  (hasOriginalFilename old = false /\
   Exif_tag (encodeOriginalFilename fileName metadata) ExifIFD.UserComment
   = Some (JString (ASCII_prefix ++
                    if nonempty old
                    then old ++ (10%N :: lit "OriginalFilename: ") ++ fileName
                    else lit "OriginalFilename: " ++ fileName))).
Proof.
  intros old.
  destruct (truthy (Exif_tag metadata ExifIFD.DateTimeOriginal)) eqn:Hd;
    [|left; apply encode_guarded; by left].
  destruct (nonempty fileName) eqn:Hf;
    [|left; apply encode_guarded; right; by destruct fileName].
  destruct (hasOriginalFilename old) eqn:Hh; [left; by apply encode_present|].
  right. split; [done|]. rewrite encode_writes by done.
  cbv zeta. by rewrite Exif_tag_insert, lookup_insert_eq.
Qed.

(** X1. The Writer only ever appends: the decoded comment after a call is
    the decoded comment before it, either unchanged or followed by one new
    line [OriginalFilename: <fileName>] (without the line feed when there
    was no text). *)
Theorem encode_appends_one_line fileName metadata :
  let old := decodeUserComment (Exif_tag metadata ExifIFD.UserComment) in
  let new := decodeUserComment
               (Exif_tag (encodeOriginalFilename fileName metadata) ExifIFD.UserComment) in
  new = old \/
  (old <> [] /\ new = old ++ (10%N :: lit "OriginalFilename: ") ++ fileName) \/
  (old = [] /\ new = lit "OriginalFilename: " ++ fileName).
Proof.
  intros old new. unfold new.
  destruct (encode_text fileName metadata) as [-> | [_ ->]]; [by left|].
  right. rewrite decodeUserComment_prefixed. fold old.
  destruct old; [right | left]; done.
Qed.

(** X3. After a call whose preconditions hold (a truthy date value and a
    non-empty filename) the decoded comment has a line that the presence
    test recognises, whatever the comment was before. *)
Theorem encode_leaves_annotation fileName metadata :
  truthy (Exif_tag metadata ExifIFD.DateTimeOriginal) = true ->
  fileName <> [] ->
  hasOriginalFilename
    (decodeUserComment
       (Exif_tag (encodeOriginalFilename fileName metadata) ExifIFD.UserComment)) = true.
Proof.
  intros Hd Hf.
  destruct (hasOriginalFilename
              (decodeUserComment (Exif_tag metadata ExifIFD.UserComment))) eqn:Hh.
  - by rewrite encode_present.
  - rewrite encode_writes; [|done|by destruct fileName|done].
    cbv zeta. rewrite Exif_tag_insert, lookup_insert_eq, decodeUserComment_prefixed.
    destruct (nonempty _);
      [apply hasOriginalFilename_appended | apply hasOriginalFilename_sole].
Qed.

(** X4. The first recorded name wins: once a call with a truthy date value
    and a non-empty filename has returned, a call with any other filename
    changes nothing. *)
Theorem encode_first_name_wins fileName other metadata :
  truthy (Exif_tag metadata ExifIFD.DateTimeOriginal) = true ->
  fileName <> [] ->
  encodeOriginalFilename other (encodeOriginalFilename fileName metadata)
  = encodeOriginalFilename fileName metadata.
Proof.
  intros Hd Hf. apply encode_present.
  destruct (hasOriginalFilename
              (decodeUserComment (Exif_tag metadata ExifIFD.UserComment))) eqn:Hh.
  - by rewrite encode_present.
  - rewrite encode_writes; [|done|by destruct fileName|done].
    cbv zeta. rewrite Exif_tag_insert, lookup_insert_eq, decodeUserComment_prefixed.
    destruct (nonempty _);
      [apply hasOriginalFilename_appended | apply hasOriginalFilename_sole].
Qed.

(** X5. The Writer never adds or removes a section: it writes only when
    the Exif section is already there, so the fallback to a fresh object in
    [metadata?.["Exif"] ?? {}] is never stored. *)
Theorem encode_keeps_sections fileName metadata :
  dom (encodeOriginalFilename fileName metadata) = dom metadata.
Proof.
  destruct (truthy (Exif_tag metadata ExifIFD.DateTimeOriginal)) eqn:Hd.
  2: { f_equal. apply encode_guarded. by left. }
  destruct (encode_cases fileName metadata) as [-> | (text & _ & ->)]; [done|].
  rewrite dom_insert_L.
  assert ("Exif"%string ∈ dom metadata) as Hin.
  { apply elem_of_dom. unfold Exif_tag in Hd.
    by destruct (metadata !! "Exif"%string). }
  apply set_eq. intros name. rewrite elem_of_union, elem_of_singleton.
  split; [by intros [-> | ?] | by right].
Qed.

End WriterMore.

Lemma encode_leaves_annotation_witness :
  hasOriginalFilename
    (decodeUserComment
       (Exif_tag (encodeOriginalFilename (lit "IMG_0001.jpg")
                    (Examples.photo_with (JString (lit "Camera: Canon"))))
                 ExifIFD.UserComment)) = true.
Proof.
  apply (encode_leaves_annotation (lit "IMG_0001.jpg")
           (Examples.photo_with (JString (lit "Camera: Canon")))).
  - vm_compute. reflexivity.
  - discriminate.
Defined.

Lemma encode_first_name_wins_witness :
  encodeOriginalFilename (lit "new.jpg")
    (encodeOriginalFilename (lit "IMG_0001.jpg") Examples.photo)
  = encodeOriginalFilename (lit "IMG_0001.jpg") Examples.photo.
Proof.
  apply (encode_first_name_wins (lit "IMG_0001.jpg") (lit "new.jpg") Examples.photo).
  - vm_compute. reflexivity.
  - discriminate.
Defined.

(** * The Reader on what the Writer wrote *)

Section ReadBack.

Implicit Types (s p r old text fileName : jsstring).

Lemma literal_app p r : Regex.literal p (p ++ r) = Some r.
Proof. induction p as [|b p IH]; [done|]. simpl. by rewrite N.eqb_refl. Qed.

(** A literal without line feed that matches in front of a line feed lies
    wholly in front of it. *)
Lemma literal_before_lf p s r rest :
  forallb (fun c => negb (c =? 10)%N) p = true ->
  Regex.literal p (s ++ 10%N :: r) = Some rest ->
  exists s', s = p ++ s'.
Proof.
  revert s. induction p as [|b p IH]; intros s Hp; [by exists s|].
  simpl in Hp. apply andb_true_iff in Hp as [Hb Hp].
  destruct s as [|a s].
  - change ([] ++ 10%N :: r) with (10%N :: r). cbn [Regex.literal].
    destruct (10 =? b)%N eqn:E; [|done]. apply N.eqb_eq in E as <-. done.
  - change ((a :: s) ++ 10%N :: r) with (a :: (s ++ 10%N :: r)). cbn [Regex.literal].
    destruct (a =? b)%N eqn:E; [|done]. apply N.eqb_eq in E as ->.
    intros (s' & ->)%IH; [|done]. by exists s'.
Qed.

Lemma dot_star_eol_total s : is_Some (Regex.dot_star_eol s).
Proof.
  induction s as [|c s [g IH]]; [by eexists|].
  simpl. destruct (isLineTerminator c); [by eexists|]. rewrite IH. by eexists.
Qed.

Lemma dot_star_eol_plain s :
  forallb (fun c => negb (isLineTerminator c)) s = true ->
  Regex.dot_star_eol s = Some s.
Proof.
  induction s as [|c s IH]; [done|].
  simpl. intros [Hc Hs]%andb_true_iff. apply negb_true_iff in Hc.
  by rewrite Hc, IH.
Qed.

Lemma spaces_group_eol_plain s :
  forallb (fun c => negb (isLineTerminator c)) s = true ->
  trimStart s <> [] ->
  Regex.spaces_group_eol s = Some (trimStart s).
Proof.
  induction s as [|c s IH]; [done|].
  cbn [forallb Regex.spaces_group_eol trimStart].
  intros [Hc Hs]%andb_true_iff Hne. apply negb_true_iff in Hc.
  destruct (isSpace c).
  - by rewrite IH.
  - unfold Regex.group_eol. by rewrite Hc, dot_star_eol_plain.
Qed.

(** In front of a space that is not a line terminator the rest of the
    pattern always finds a group. *)
Lemma spaces_group_eol_blank s : is_Some (Regex.spaces_group_eol (32%N :: s)).
Proof.
  cbn [Regex.spaces_group_eol]. change (isSpace 32) with true. cbv iota.
  destruct (Regex.spaces_group_eol s); [by eexists|].
  unfold Regex.group_eol. change (isLineTerminator 32) with false. cbv iota.
  destruct (dot_star_eol_total s) as [g ->]. by eexists.
Qed.

Lemma match_here_annotation r :
  Regex.match_here (lit "OriginalFilename: " ++ r) = Regex.spaces_group_eol (32%N :: r).
Proof.
  unfold Regex.match_here.
  change (lit "OriginalFilename: " ++ r)
    with (lit "OriginalFilename:" ++ 32%N :: r).
  by rewrite literal_app.
Qed.

Lemma search_annotation r :
  Regex.search true (lit "OriginalFilename: " ++ r) = Regex.spaces_group_eol (32%N :: r).
Proof.
  change (lit "OriginalFilename: " ++ r)
    with (79%N :: (lit "riginalFilename: " ++ r)).
  rewrite search_cons.
  change (79%N :: (lit "riginalFilename: " ++ r))
    with (lit "OriginalFilename: " ++ r).
  rewrite match_here_annotation.
  by destruct (spaces_group_eol_blank r) as [g ->].
Qed.

(** Behind any text and a line feed, an annotation that the pattern
    matches is reached or preceded by another match. *)
Lemma search_reaches old r : forall bol,
  is_Some (Regex.search bol (old ++ 10%N :: lit "OriginalFilename: " ++ r)).
Proof.
  induction old as [|c old IH]; intros bol.
  - change ([] ++ 10%N :: lit "OriginalFilename: " ++ r)
      with (10%N :: (lit "OriginalFilename: " ++ r)).
    rewrite search_cons.
    destruct (if bol then _ else _); [by eexists|].
    change (isLineTerminator 10) with true.
    rewrite search_annotation. apply spaces_group_eol_blank.
  - change ((c :: old) ++ 10%N :: lit "OriginalFilename: " ++ r)
      with (c :: (old ++ 10%N :: lit "OriginalFilename: " ++ r)).
    rewrite search_cons.
    destruct (if bol then _ else _); [by eexists | apply IH].
Qed.

(** Text in which the label with its colon does not occur is skipped. *)
Lemma search_skips old r :
  (forall a b, old <> a ++ lit "OriginalFilename:" ++ b) ->
  forall bol,
    Regex.search bol (old ++ 10%N :: lit "OriginalFilename: " ++ r)
    = Regex.search true (lit "OriginalFilename: " ++ r).
Proof.
  induction old as [|c old IH]; intros Hnone bol.
  - change ([] ++ 10%N :: lit "OriginalFilename: " ++ r)
      with (10%N :: (lit "OriginalFilename: " ++ r)).
    rewrite search_cons. by destruct bol.
  - change ((c :: old) ++ 10%N :: lit "OriginalFilename: " ++ r)
      with (c :: (old ++ 10%N :: lit "OriginalFilename: " ++ r)).
    rewrite search_cons.
    assert (Regex.match_here (c :: (old ++ 10%N :: lit "OriginalFilename: " ++ r)) = None)
      as Hhere.
    { unfold Regex.match_here.
      destruct (Regex.literal _ _) as [rest|] eqn:E; [|done].
      change (c :: (old ++ 10%N :: lit "OriginalFilename: " ++ r))
        with ((c :: old) ++ 10%N :: lit "OriginalFilename: " ++ r) in E.
      apply literal_before_lf in E as [s' E]; [|reflexivity].
      by destruct (Hnone [] s'). }
    rewrite Hhere.
    assert ((if bol then None else None) = @None jsstring) as -> by by destruct bol.
    apply IH. intros a b ->. by apply (Hnone (c :: a) b).
Qed.

End ReadBack.

(** * Lines and trimmed lines are pieces of the text *)

Section Pieces.

Implicit Types (s p r line text : jsstring).

Lemma startsWith_prefix s p : startsWith s p = true -> exists r, s = p ++ r.
Proof.
  revert s. induction p as [|b p IH]; intros s; [by exists s|].
  destruct s as [|a s]; simpl; [done|].
  intros [->%N.eqb_eq (r & ->)%IH]%andb_true_iff. by exists r.
Qed.

Lemma trimStart_suffix s : exists ws, s = ws ++ trimStart s.
Proof.
  induction s as [|c s (ws & IH)]; [by exists []|].
  simpl. destruct (isSpace c); [|by exists []].
  exists (c :: ws). simpl. by rewrite <- IH.
Qed.

Lemma trimEnd_prefix s : exists ws, s = trimEnd s ++ ws.
Proof.
  induction s as [|c s (ws & IH)]; [by exists []|].
  simpl. destruct (trimEnd s) as [|d t] eqn:E.
  - destruct (isSpace c); [by exists (c :: s)|]. exists ws. simpl. by rewrite IH at 1.
  - exists ws. simpl. by rewrite IH at 1.
Qed.

Lemma trim_infix s : exists a b, s = a ++ trim s ++ b.
Proof.
  unfold trim. destruct (trimStart_suffix s) as (a & Ha).
  destruct (trimEnd_prefix (trimStart s)) as (b & Hb).
  exists a, b. by rewrite <- Hb.
Qed.

(** The first line is a prefix of the text and every other line a piece of
    it. *)
Lemma split_lines_pieces s :
  exists l ls b,
    split_lines s = l :: ls /\ s = l ++ b /\
    Forall (fun line => exists a b, s = a ++ line ++ b) ls.
Proof.
  remember (length s) as n eqn:Hn.
  revert s Hn. induction n as [n IH] using lt_wf_ind. intros s ->.
  destruct s as [|c s]; [by exists [], [], []|].
  assert (forall s', (length s' < length (c :: s))%nat -> forall pre,
            Forall (fun line => exists a b, pre ++ s' = a ++ line ++ b) (split_lines s'))
    as Hrest.
  { intros s' Hlen pre.
    destruct (IH (length s') Hlen s' eq_refl) as (l & ls & b & -> & Hl & Hls).
    constructor.
    - exists pre, b. by rewrite Hl at 1.
    - eapply Forall_impl; [exact Hls|]. intros line (a & b' & E).
      exists (pre ++ a), b'. rewrite E at 1. by rewrite <- app_assoc. }
  rewrite split_lines_cons.
  destruct (c =? 10)%N.
  { exists [], (split_lines s), (c :: s). split; [done|]. split; [done|].
    apply (Hrest s) with (pre := [c]). simpl. lia. }
  destruct (IH (length s)) with (s := s) as (l & ls & b & Hs & Hl & Hls);
    [simpl; lia | done |].
  assert (exists l' ls' b',
            push_front c (split_lines s) = l' :: ls' /\ c :: s = l' ++ b' /\
            Forall (fun line => exists a b, c :: s = a ++ line ++ b) ls') as Hpush.
  { exists (c :: l), ls, b. rewrite Hs. split; [done|]. split; [by rewrite Hl at 1|].
    eapply Forall_impl; [exact Hls|]. intros line (a & b' & E).
    exists (c :: a), b'. by rewrite E at 1. }
  destruct s as [|d s'']; [exact Hpush|].
  destruct ((c =? 13)%N && (d =? 10)%N); [|exact Hpush].
  exists [], (split_lines s''), (c :: d :: s''). split; [done|]. split; [done|].
  apply (Hrest s'') with (pre := [c; d]). simpl. lia.
Qed.

Lemma split_lines_piece s line :
  line ∈ split_lines s -> exists a b, s = a ++ line ++ b.
Proof.
  destruct (split_lines_pieces s) as (l & ls & b & -> & Hl & Hls).
  intros [-> | Hin]%elem_of_cons.
  - by exists [], b.
  - rewrite Forall_forall in Hls. by apply Hls.
Qed.

(** A line whose trimmed text starts with a label holds the label. *)
Lemma label_line_piece text line p :
  line ∈ split_lines text -> startsWith (trim line) p = true ->
  exists a b, text = a ++ p ++ b.
Proof.
  intros (a & b & ->)%split_lines_piece (r & Hr)%startsWith_prefix.
  destruct (trim_infix line) as (a' & b' & ->). rewrite Hr.
  exists (a ++ a'), (r ++ b' ++ b). by rewrite <- !app_assoc.
Qed.

End Pieces.

(** X6. The presence test of the Writer fires only when the label occurs
    in the decoded comment: a comment without the text [OriginalFilename]
    is never taken for annotated. *)
Theorem presence_test_needs_label (text : jsstring) :
  hasOriginalFilename text = true ->
  exists a b, text = a ++ lit "OriginalFilename" ++ b.
Proof.
  unfold hasOriginalFilename. intros (line & Hin & Hline)%existsb_exists.
  apply list_elem_of_In in Hin. by apply (label_line_piece text line).
Qed.

Lemma presence_test_needs_label_witness :
  exists a b,
    lit "Camera: Canon" ++ [10%N] ++ lit "  OriginalFilenames backup"
    = a ++ lit "OriginalFilename" ++ b.
Proof.
  apply (presence_test_needs_label
           (lit "Camera: Canon" ++ [10%N] ++ lit "  OriginalFilenames backup")).
  vm_compute. reflexivity.
Defined.

Section ReadBackClaims.

Implicit Types (metadata : ExifDict) (fileName : jsstring).

Lemma trimStart_no_space_first s :
  trimStart (trimStart s) = trimStart s.
Proof.
  induction s as [|c s IH]; [done|].
  simpl. destruct (isSpace c) eqn:Hc; [done|]. simpl. by rewrite Hc.
Qed.

(** What the regex finds in a freshly written comment. *)
Lemma read_back_text old fileName :
  forallb (fun c => negb (isLineTerminator c)) fileName = true ->
  trim fileName <> [] ->
  (forall a b, old <> a ++ lit "OriginalFilename:" ++ b) ->
  Regex.match_OriginalFilename
    (if nonempty old
     then old ++ (10%N :: lit "OriginalFilename: ") ++ fileName
     else lit "OriginalFilename: " ++ fileName)
  = Some (trimStart fileName).
Proof.
  intros Hplain Htrim Hnone. unfold Regex.match_OriginalFilename.
  assert (Regex.search true (lit "OriginalFilename: " ++ fileName)
          = Some (trimStart fileName)) as Hhere.
  { rewrite search_annotation.
    rewrite spaces_group_eol_plain; [done | by simpl; rewrite Hplain |].
    change (trimStart (32%N :: fileName)) with (trimStart fileName).
    intros E. apply Htrim. unfold trim. by rewrite E. }
  destruct (nonempty old); [|done].
  change ((10%N :: lit "OriginalFilename: ") ++ fileName)
    with (10%N :: lit "OriginalFilename: " ++ fileName).
  by rewrite search_skips.
Qed.

(** What the Writer stores when the label does not occur in the comment. *)
Lemma encode_stores_fresh fileName metadata :
  truthy (Exif_tag metadata ExifIFD.DateTimeOriginal) = true ->
  fileName <> [] ->
  (forall a b, decodeUserComment (Exif_tag metadata ExifIFD.UserComment)
               <> a ++ lit "OriginalFilename" ++ b) ->
  let old := decodeUserComment (Exif_tag metadata ExifIFD.UserComment) in
  Exif_tag (encodeOriginalFilename fileName metadata) ExifIFD.UserComment
  = Some (JString (ASCII_prefix ++
                   if nonempty old
                   then old ++ (10%N :: lit "OriginalFilename: ") ++ fileName
                   else lit "OriginalFilename: " ++ fileName)).
Proof.
  intros Hd Hf Hnone old.
  assert (hasOriginalFilename old = false) as Hh.
  { destruct (hasOriginalFilename old) eqn:E; [|done].
    apply existsb_exists in E as (line & Hin & Hline).
    apply list_elem_of_In in Hin.
    destruct (label_line_piece _ _ _ Hin Hline) as (a & b & E).
    by destruct (Hnone a b). }
  rewrite encode_writes; [|done|by destruct fileName|done].
  cbv zeta. by rewrite Exif_tag_insert, lookup_insert_eq.
Qed.

(** X2. Round trip for any filename: on a container with a truthy date
    value whose decoded comment does not contain the label, the Writer
    called with a filename that has no line terminator and is not all
    white space stores a comment from which the Reader's lines 33-42 read
    back the trimmed filename. *)
Theorem annotation_read_back fileName metadata :
  truthy (Exif_tag metadata ExifIFD.DateTimeOriginal) = true ->
  forallb (fun c => negb (isLineTerminator c)) fileName = true ->
  trim fileName <> [] ->
  (forall a b, decodeUserComment (Exif_tag metadata ExifIFD.UserComment)
               <> a ++ lit "OriginalFilename" ++ b) ->
  readOriginalFileName
    (Exif_tag (encodeOriginalFilename fileName metadata) ExifIFD.UserComment)
  = trim fileName.
Proof.
  intros Hd Hplain Htrim Hnone.
  rewrite encode_stores_fresh; [|done|by destruct fileName|done].
  unfold readOriginalFileName. rewrite decodeUserComment_prefixed.
  rewrite read_back_text; [|done|done|].
  - unfold trim. by rewrite trimStart_no_space_first.
  - intros a b E. apply (Hnone a (58%N :: b)). by rewrite E.
Qed.

(** X7. Whenever the Writer changes the container, the Reader's regex
    finds a match in the comment it stored. *)
Theorem written_annotation_is_found fileName metadata :
  encodeOriginalFilename fileName metadata <> metadata ->
  is_Some (Regex.match_OriginalFilename
             (decodeUserComment
                (Exif_tag (encodeOriginalFilename fileName metadata)
                          ExifIFD.UserComment))).
Proof.
  intros Hchanged.
  destruct (encode_text fileName metadata) as [E | [_ ->]]; [done|].
  rewrite decodeUserComment_prefixed. unfold Regex.match_OriginalFilename.
  destruct (nonempty _).
  - change ((10%N :: lit "OriginalFilename: ") ++ fileName)
      with (10%N :: lit "OriginalFilename: " ++ fileName).
    apply search_reaches.
  - rewrite search_annotation. apply spaces_group_eol_blank.
Qed.

End ReadBackClaims.

Lemma annotation_read_back_witness :
  readOriginalFileName
    (Exif_tag (encodeOriginalFilename (lit " my photo.jpg  ")
                 (Examples.photo_with (JString (lit "Camera: Canon"))))
              ExifIFD.UserComment)
  = lit "my photo.jpg".
Proof.
  apply (annotation_read_back (lit " my photo.jpg  ")
           (Examples.photo_with (JString (lit "Camera: Canon")))).
  - vm_compute. reflexivity.
  - vm_compute. reflexivity.
  - vm_compute. discriminate.
  - intros a b H.
    assert (decodeUserComment
              (Exif_tag (Examples.photo_with (JString (lit "Camera: Canon")))
                        ExifIFD.UserComment)
            = lit "Camera: Canon") as E by (vm_compute; reflexivity).
    rewrite E in H. no_occurrence H.
Defined.

Lemma written_annotation_is_found_witness :
  is_Some (Regex.match_OriginalFilename
             (decodeUserComment
                (Exif_tag (encodeOriginalFilename (lit "IMG_0001.jpg") Examples.photo)
                          ExifIFD.UserComment))).
Proof.
  apply (written_annotation_is_found (lit "IMG_0001.jpg") Examples.photo).
  intros E. apply (f_equal (fun m => Exif_tag m ExifIFD.UserComment)) in E.
  vm_compute in E. discriminate E.
Defined.

(** * Further properties of the Reader *)

Section TrimFacts.

Implicit Types (s : jsstring).

Lemma trimEnd_idem s : trimEnd (trimEnd s) = trimEnd s.
Proof.
  induction s as [|c s IH]; [done|].
  simpl. destruct (trimEnd s) as [|d t] eqn:E.
  - destruct (isSpace c) eqn:Hc; [done|]. simpl. by rewrite Hc.
  - change (trimEnd (c :: d :: t))
      with (match trimEnd (d :: t) with
            | [] => if isSpace c then [] else [c]
            | t' => c :: t'
            end).
    by rewrite IH.
Qed.

Lemma trim_idem s : trim (trim s) = trim s.
Proof.
  unfold trim.
  assert (forall t, trimStart t = t -> trimStart (trimEnd t) = trimEnd t) as Hkeep.
  { intros [|c t]; [done|]. simpl. destruct (isSpace c) eqn:Hc.
    - intros E. exfalso.
      destruct (trimStart_suffix t) as (ws & Hws).
      apply (f_equal length) in E. apply (f_equal length) in Hws.
      rewrite length_app in Hws. simpl in E. lia.
    - intros _. destruct (trimEnd t); simpl; by rewrite Hc. }
  rewrite Hkeep by apply trimStart_no_space_first.
  apply trimEnd_idem.
Qed.

Lemma trimStart_Forall (P : N -> Prop) s : Forall P s -> Forall P (trimStart s).
Proof.
  induction 1 as [|c s Hc Hs IH]; [done|].
  simpl. destruct (isSpace c); [done | by constructor].
Qed.

Lemma trimEnd_Forall (P : N -> Prop) s : Forall P s -> Forall P (trimEnd s).
Proof.
  induction 1 as [|c s Hc Hs IH]; [done|].
  simpl. destruct (trimEnd s); [|by constructor].
  destruct (isSpace c); [done | by constructor].
Qed.

Lemma before_first_no_sep sep s : Forall (fun c => c <> sep) (before_first sep s).
Proof.
  induction s as [|c s IH]; [done|].
  simpl. destruct (c =? sep)%N eqn:E; [done|].
  constructor; [by apply N.eqb_neq | done].
Qed.

End TrimFacts.

Section ReaderMore.

Context {TFile : Type}.
Variable readBinary : TFile -> js_error + list byte.
Variable piexif_load : jsstring -> js_error + ExifDict.

Local Abbreviation start := {| dateTaken := []; originalFileName := [] |}.

(** A truthy date value that is not a string makes [split] throw with both
    variables untouched. *)
Lemma read_tags_non_string exifObj v vars :
  Exif_tag exifObj ExifIFD.DateTimeOriginal = Some v ->
  truthy (Some v) = true -> (forall d, v <> JString d) ->
  read_tags exifObj vars = (vars, inl (TypeError "exifDate.split is not a function")).
Proof.
  intros Hd Ht Hv. unfold read_tags, bind, call. rewrite Hd, Ht.
  destruct v as [d| |]; [by destruct (Hv d) | done | done].
Qed.

(** The outcome of [read_tags] by the value of the date tag. *)
Lemma read_tags_outcome exifObj vars :
  (exists e, read_tags exifObj vars = (vars, inl e) /\
             truthy (Exif_tag exifObj ExifIFD.DateTimeOriginal) = true /\
             forall d, Exif_tag exifObj ExifIFD.DateTimeOriginal <> Some (JString d)) \/
  (exists vars', read_tags exifObj vars = (vars', inr tt) /\
     (truthy (Exif_tag exifObj ExifIFD.DateTimeOriginal) = false \/
      exists d, Exif_tag exifObj ExifIFD.DateTimeOriginal = Some (JString d))).
Proof.
  destruct (Exif_tag exifObj ExifIFD.DateTimeOriginal) as [v|] eqn:Hd.
  - destruct v as [d|n|l].
    + right. rewrite (read_tags_string _ _ _ Hd). eexists. split; [done|]. right. by exists d.
    + destruct (truthy (Some (JNumber n))) eqn:Ht.
      * left. eexists. split; [|done].
        by apply (read_tags_non_string _ (JNumber n)).
      * right. rewrite read_tags_absent by by rewrite Hd.
        eexists. split; [done|]. by left.
    + left. eexists. split; [|done].
      by apply (read_tags_non_string _ (JArray l)).
  - right. rewrite read_tags_absent by by rewrite Hd.
    eexists. split; [done|]. by left.
Qed.

(** X11. The Reader ends without a warning exactly when the read and the
    parse succeed and the date value is falsy (absent, empty, zero) or a
    string; otherwise the [catch] clause runs. *)
Theorem extract_silent_iff (file : TFile) :
  (extractExifDateAndFilename readBinary piexif_load file).2 = None <->
  exists bytes exifObj,
    readBinary file = inr bytes /\
    piexif_load (dataUrl_of bytes) = inr exifObj /\
    (truthy (Exif_tag exifObj ExifIFD.DateTimeOriginal) = false \/
     exists d, Exif_tag exifObj ExifIFD.DateTimeOriginal = Some (JString d)).
Proof.
  split.
  - destruct (readBinary file) as [e|bytes] eqn:H1.
    { by rewrite (extract_read_error _ _ _ _ H1). }
    destruct (piexif_load (dataUrl_of bytes)) as [e|exifObj] eqn:H2.
    { by rewrite (extract_load_error _ _ _ _ _ H1 H2). }
    rewrite (extract_loaded _ _ _ _ _ H1 H2).
    destruct (read_tags_outcome exifObj start)
      as [(e & -> & _) | (vars' & -> & Hdate)]; [done|].
    intros _. by exists bytes, exifObj.
  - intros (bytes & exifObj & H1 & H2 & Hdate).
    rewrite (extract_loaded _ _ _ _ _ H1 H2).
    destruct (read_tags_outcome exifObj start)
      as [(e & _ & Ht & Hns) | (vars' & -> & _)]; [|done].
    destruct Hdate as [Hf | [d Hd]]; [congruence | by destruct (Hns d)].
Qed.

(** X9. [dateTaken] never holds a colon or a space, whatever the file and
    whatever the host and the codec do. *)
Theorem dateTaken_has_no_colon_or_space (file : TFile) :
  Forall (fun c => c <> 58%N /\ c <> 32%N)
         (dateTaken (extractExifDateAndFilename readBinary piexif_load file).1).
Proof.
  destruct (readBinary file) as [e|bytes] eqn:H1.
  { by rewrite (extract_read_error _ _ _ _ H1). }
  destruct (piexif_load (dataUrl_of bytes)) as [e|exifObj] eqn:H2.
  { by rewrite (extract_load_error _ _ _ _ _ H1 H2). }
  rewrite (extract_loaded _ _ _ _ _ H1 H2).
  destruct (read_tags_outcome exifObj start)
    as [(e & -> & _) | (vars' & Hr & [Hf | [d Hd]])]; [done| |].
  - by rewrite read_tags_absent.
  - rewrite (read_tags_string _ _ _ Hd). simpl.
    destruct (nonempty d); [|done].
    unfold replace_char. apply Forall_map.
    eapply Forall_impl; [apply (before_first_no_sep 32)|].
    intros c Hc. simpl. destruct (c =? 58)%N eqn:E; [done|].
    split; [by apply N.eqb_neq | done].
Qed.

(** X10. [originalFileName] is always trimmed and holds no line
    terminator, whatever the file and whatever the host and the codec
    do. *)
Theorem originalFileName_is_one_trimmed_line (file : TFile) :
  trim (originalFileName (extractExifDateAndFilename readBinary piexif_load file).1)
  = originalFileName (extractExifDateAndFilename readBinary piexif_load file).1 /\
  Forall (fun c => isLineTerminator c = false)
         (originalFileName (extractExifDateAndFilename readBinary piexif_load file).1).
Proof.
  assert (forall g, Forall (fun c => isLineTerminator c = false) g ->
                    trim (trim g) = trim g /\
                    Forall (fun c => isLineTerminator c = false) (trim g)) as Hg.
  { intros g Hplain. split; [apply trim_idem|].
    by apply trimEnd_Forall, trimStart_Forall. }
  destruct (readBinary file) as [e|bytes] eqn:H1.
  { by rewrite (extract_read_error _ _ _ _ H1). }
  destruct (piexif_load (dataUrl_of bytes)) as [e|exifObj] eqn:H2.
  { by rewrite (extract_load_error _ _ _ _ _ H1 H2). }
  rewrite (extract_loaded _ _ _ _ _ H1 H2).
  destruct (read_tags exifObj start) as [vars' [e|u]] eqn:Ht.
  { by rewrite (read_tags_throws _ _ _ _ Ht). }
  simpl. rewrite (read_tags_returns _ _ _ _ Ht).
  destruct (Regex.match_OriginalFilename _) as [g|] eqn:Em; [|done].
  apply Hg. apply search_sound in Em as (_ & _ & _ & _ & _ & _ & _ & Hplain & _).
  apply Forall_forall. intros c Hc.
  rewrite forallb_forall in Hplain.
  apply negb_true_iff, Hplain. by apply list_elem_of_In.
Qed.

End ReaderMore.

Section HeaderWindow.

Lemma slice_header_take (arrayBuffer : list byte) :
  slice_header arrayBuffer = take headerBytes arrayBuffer.
Proof.
  unfold slice_header.
  destruct (headerBytes <? length arrayBuffer)%nat eqn:E; [done|].
  apply Nat.ltb_ge in E. symmetry. by apply take_ge.
Qed.

Lemma base64_length (s : jsstring) : length (base64 s) = 4 * ((length s + 2) / 3).
Proof.
  remember (length s) as n eqn:Hn.
  revert s Hn. induction n as [n IH] using lt_wf_ind. intros s ->.
  destruct s as [|a [|b [|c rest]]]; [done | done | done |].
  change (base64 (a :: b :: c :: rest))
    with ([base64_digit (N.shiftr a 2);
           base64_digit (N.lor (N.shiftl (N.land a 3) 4) (N.shiftr b 4));
           base64_digit (N.lor (N.shiftl (N.land b 15) 2) (N.shiftr c 6));
           base64_digit (N.land c 63)] ++ base64 rest).
  rewrite length_app, (IH (length rest)) with (s := rest); [|simpl; lia|done].
  change (length (a :: b :: c :: rest) + 2) with (1 * 3 + (length rest + 2)).
  rewrite Nat.div_add_l by done. simpl length. lia.
Qed.

(** X12. The data URL handed to the codec is built without error from the
    first 64 KiB of the file only: [btoa] cannot throw on bytes, the URL
    starts with [data:image/jpeg;base64,], and its length is 23 plus four
    characters for every three bytes of the window, so it is bounded
    whatever the size of the file. *)
Theorem header_dataUrl_bounded (arrayBuffer : list byte) (vars : Extracted) :
  header_dataUrl arrayBuffer vars = (vars, inr (dataUrl_of arrayBuffer)) /\
  dataUrl_of arrayBuffer = dataUrl_of (take headerBytes arrayBuffer) /\
  startsWith (dataUrl_of arrayBuffer) (lit "data:image/jpeg;base64,") = true /\
  length (dataUrl_of arrayBuffer)
  = 23 + 4 * ((Nat.min headerBytes (length arrayBuffer) + 2) / 3) /\
  length (dataUrl_of arrayBuffer) <= 23 + 4 * ((headerBytes + 2) / 3).
Proof.
  assert (length (dataUrl_of arrayBuffer)
          = 23 + 4 * ((Nat.min headerBytes (length arrayBuffer) + 2) / 3)) as Hlen.
  { unfold dataUrl_of, fromCharCode.
    rewrite length_app, base64_length, length_map, slice_header_take, length_take.
    reflexivity. }
  split; [apply header_dataUrl_bytes|]. split.
  { unfold dataUrl_of. by rewrite !slice_header_take, take_take, Nat.min_id. }
  split; [apply startsWith_app|]. split; [done|].
  rewrite Hlen. apply Nat.add_le_mono_l, Nat.mul_le_mono_l, Nat.Div0.div_le_mono.
  apply Nat.add_le_mono_r, Nat.le_min_l.
Qed.

End HeaderWindow.

Section ReaderCompose.

Context {TFile : Type}.
Variable readBinary : TFile -> js_error + list byte.
Variable piexif_load piexif_load' : jsstring -> js_error + ExifDict.

(** Past the parse, the Reader is [read_tags] from empty variables. *)
Lemma extract_cases (load : jsstring -> js_error + ExifDict) (file : TFile) :
  extractExifDateAndFilename readBinary load file =
  match readBinary file with
  | inl e => (Examples.no_result, Some e)
  | inr bytes =>
      match load (dataUrl_of bytes) with
      | inl e => (Examples.no_result, Some e)
      | inr exifObj =>
          match read_tags exifObj Examples.no_result with
          | (vars', inr _) => (vars', None)
          | (vars', inl e) => (vars', Some e)
          end
      end
  end.
Proof.
  destruct (readBinary file) as [e|bytes] eqn:H1.
  { by rewrite (extract_read_error _ _ _ _ H1). }
  destruct (load (dataUrl_of bytes)) as [e|exifObj] eqn:H2.
  { by rewrite (extract_load_error _ _ _ _ _ H1 H2). }
  by rewrite (extract_loaded _ _ _ _ _ H1 H2).
Qed.

(** X13. The Reader never looks past the header window: two files whose
    first 64 KiB are the same bytes give the same result and the same
    warning. *)
Theorem extract_reads_header_only (file1 file2 : TFile) (bytes1 bytes2 : list byte) :
  readBinary file1 = inr bytes1 ->
  readBinary file2 = inr bytes2 ->
  take headerBytes bytes1 = take headerBytes bytes2 ->
  extractExifDateAndFilename readBinary piexif_load file1
  = extractExifDateAndFilename readBinary piexif_load file2.
Proof.
  intros H1 H2 Hsame. rewrite !extract_cases, H1, H2.
  assert (dataUrl_of bytes1 = dataUrl_of bytes2) as ->; [|done].
  unfold dataUrl_of. by rewrite !slice_header_take, Hsame.
Qed.

(** The date and the outcome of [read_tags] hang on the date tag alone. *)
Lemma read_tags_date_only (exifObj exifObj' : ExifDict) vars :
  Exif_tag exifObj' ExifIFD.DateTimeOriginal = Exif_tag exifObj ExifIFD.DateTimeOriginal ->
  dateTaken (read_tags exifObj' vars).1 = dateTaken (read_tags exifObj vars).1 /\
  match (read_tags exifObj' vars).2, (read_tags exifObj vars).2 with
  | inl e', inl e => e' = e
  | inr _, inr _ => True
  | _, _ => False
  end.
Proof.
  intros Hd. unfold read_tags, bind, call. rewrite Hd.
  destruct vars as [dt ofn].
  destruct (truthy _); [destruct (split_method _) as [e|pieces]; [done|]|];
    simpl; by do 2 destruct (Regex.match_OriginalFilename _).
Qed.

(** X8. Annotating a container does not change what the Reader makes of
    its date: on the container after the Writer's call the Reader returns
    the same [dateTaken] and warns in the same cases as on the container
    before it. *)
Theorem encode_keeps_dateTaken (file : TFile) (bytes : list byte)
    (fileName : jsstring) (metadata : ExifDict) :
  readBinary file = inr bytes ->
  piexif_load (dataUrl_of bytes) = inr metadata ->
  piexif_load' (dataUrl_of bytes) = inr (encodeOriginalFilename fileName metadata) ->
  dateTaken (extractExifDateAndFilename readBinary piexif_load' file).1
  = dateTaken (extractExifDateAndFilename readBinary piexif_load file).1 /\
  (extractExifDateAndFilename readBinary piexif_load' file).2
  = (extractExifDateAndFilename readBinary piexif_load file).2.
Proof.
  intros H1 H2 H3. rewrite !extract_cases, H1, H2, H3.
  assert (Exif_tag (encodeOriginalFilename fileName metadata) ExifIFD.DateTimeOriginal
          = Exif_tag metadata ExifIFD.DateTimeOriginal) as Hd.
  { destruct (encode_cases fileName metadata) as [-> | (text & _ & ->)]; [done|].
    rewrite Exif_tag_insert, lookup_insert_ne by done. apply section_lookup. }
  destruct (read_tags_date_only metadata _ Examples.no_result Hd) as [Hdate Hout].
  destruct (read_tags (encodeOriginalFilename fileName metadata) _) as [vars' [e'|[]]];
    destruct (read_tags metadata _) as [vars [e|[]]]; simpl in *; try done.
  by rewrite Hout.
Qed.

(** X14. Writer, then Reader: when the codec gives back a container that
    the Writer has annotated, whose date value is a non-empty string and
    whose comment did not contain the label before, the Reader returns the
    normalized date and the trimmed filename (for a filename without line
    terminator that is not all white space), without a warning. *)
Theorem extract_after_encode (file : TFile) (bytes : list byte)
    (fileName d : jsstring) (metadata : ExifDict) :
  readBinary file = inr bytes ->
  piexif_load (dataUrl_of bytes) = inr (encodeOriginalFilename fileName metadata) ->
  Exif_tag metadata ExifIFD.DateTimeOriginal = Some (JString d) -> d <> [] ->
  forallb (fun c => negb (isLineTerminator c)) fileName = true ->
  trim fileName <> [] ->
  (forall a b, decodeUserComment (Exif_tag metadata ExifIFD.UserComment)
               <> a ++ lit "OriginalFilename" ++ b) ->
  extractExifDateAndFilename readBinary piexif_load file
  = ({| dateTaken := replace_char 58 45 (before_first 32 d);
        originalFileName := trim fileName |}, None).
Proof.
  intros H1 H2 Hd Hne Hplain Htrim Hnone.
  assert (truthy (Exif_tag metadata ExifIFD.DateTimeOriginal) = true) as Ht.
  { rewrite Hd. by destruct d. }
  assert (fileName <> []) as Hf by by destruct fileName.
  rewrite extract_cases, H1, H2.
  assert (Exif_tag (encodeOriginalFilename fileName metadata) ExifIFD.DateTimeOriginal
          = Some (JString d)) as Hd'.
  { rewrite <- Hd.
    destruct (encode_cases fileName metadata) as [-> | (text & _ & ->)]; [done|].
    rewrite Exif_tag_insert, lookup_insert_ne by done. apply section_lookup. }
  rewrite (read_tags_string _ _ _ Hd').
  rewrite encode_stores_fresh by done.
  rewrite decodeUserComment_prefixed, read_back_text; [|done|done|].
  - unfold trim at 1. rewrite trimStart_no_space_first. by destruct d.
  - intros a b E. apply (Hnone a (58%N :: b)). by rewrite E.
Qed.

End ReaderCompose.

Lemma extract_reads_header_only_witness :
  extractExifDateAndFilename Examples.two_files (Examples.loads Examples.photo) true
  = extractExifDateAndFilename Examples.two_files (Examples.loads Examples.photo) false.
Proof.
  apply (extract_reads_header_only Examples.two_files (Examples.loads Examples.photo)
           true false (Examples.long_file x01) (Examples.long_file x02)).
  - reflexivity.
  - reflexivity.
  - unfold Examples.long_file.
    rewrite !take_app_length' by (by rewrite length_replicate). reflexivity.
Defined.

Lemma encode_keeps_dateTaken_witness :
  dateTaken (extractExifDateAndFilename (Examples.file_of [])
               (Examples.loads (encodeOriginalFilename (lit "IMG_0001.jpg") Examples.photo))
               tt).1
  = dateTaken (extractExifDateAndFilename (Examples.file_of [])
                 (Examples.loads Examples.photo) tt).1.
Proof.
  apply (encode_keeps_dateTaken (Examples.file_of []) (Examples.loads Examples.photo)
           (Examples.loads (encodeOriginalFilename (lit "IMG_0001.jpg") Examples.photo))
           tt [] (lit "IMG_0001.jpg") Examples.photo).
  - reflexivity.
  - reflexivity.
  - reflexivity.
Defined.

Lemma extract_after_encode_witness :
  extractExifDateAndFilename (Examples.file_of [])
    (Examples.loads
       (encodeOriginalFilename (lit " my photo.jpg  ")
          (Examples.photo_with (JString (lit "Camera: Canon"))))) tt
  = ({| dateTaken := replace_char 58 45 (before_first 32 (lit "2021:07:04 10:00:00"));
        originalFileName := trim (lit " my photo.jpg  ") |}, None).
Proof.
  apply (extract_after_encode (Examples.file_of [])
           (Examples.loads
              (encodeOriginalFilename (lit " my photo.jpg  ")
                 (Examples.photo_with (JString (lit "Camera: Canon")))))
           tt [] (lit " my photo.jpg  ") (lit "2021:07:04 10:00:00")
           (Examples.photo_with (JString (lit "Camera: Canon")))).
  - reflexivity.
  - reflexivity.
  - vm_compute. reflexivity.
  - discriminate.
  - vm_compute. reflexivity.
  - vm_compute. discriminate.
  - intros a b H.
    assert (decodeUserComment
              (Exif_tag (Examples.photo_with (JString (lit "Camera: Canon")))
                        ExifIFD.UserComment)
            = lit "Camera: Canon") as E by (vm_compute; reflexivity).
    rewrite E in H. no_occurrence H.
Defined.

(** X15. When the Writer writes: a call leaves the container as it was
    exactly when the date value is falsy, the filename is empty, or a line
    of the decoded comment already begins with the label; in every other
    case it changes the container. *)
Theorem encode_unchanged_iff (fileName : jsstring) (metadata : ExifDict) :
  encodeOriginalFilename fileName metadata = metadata <->
  truthy (Exif_tag metadata ExifIFD.DateTimeOriginal) = false \/
  fileName = [] \/
  hasOriginalFilename (decodeUserComment (Exif_tag metadata ExifIFD.UserComment)) = true.
Proof.
  split.
  - intros Hsame.
    destruct (truthy (Exif_tag metadata ExifIFD.DateTimeOriginal)) eqn:Hd; [|by left].
    destruct fileName as [|c fileName]; [by right; left|].
    destruct (hasOriginalFilename
                (decodeUserComment (Exif_tag metadata ExifIFD.UserComment))) eqn:Hh;
      [by right; right|].
    exfalso.
    pose proof (encode_writes (c :: fileName) metadata Hd eq_refl Hh) as Hw.
    cbv zeta in Hw. rewrite Hsame in Hw.
    apply (f_equal (fun m => decodeUserComment (Exif_tag m ExifIFD.UserComment))) in Hw.
    rewrite Exif_tag_insert, lookup_insert_eq, decodeUserComment_prefixed in Hw.
    rewrite Hw in Hh.
    destruct (nonempty _);
      [by rewrite hasOriginalFilename_appended in Hh
      | by rewrite hasOriginalFilename_sole in Hh].
  - intros [Hd | [-> | Hh]].
    + apply encode_guarded. by left.
    + apply encode_guarded. by right.
    + by apply encode_present.
Qed.

Section DateFormat.

Implicit Types (s t : jsstring).

Lemma before_first_app sep s t :
  Forall (fun c => c <> sep) s -> before_first sep (s ++ sep :: t) = s.
Proof.
  induction 1 as [|c s Hc Hs IH]; simpl.
  - by rewrite N.eqb_refl.
  - apply N.eqb_neq in Hc. by rewrite Hc, IH.
Qed.

Lemma replace_char_keeps x y s :
  Forall (fun c => c <> x) s -> replace_char x y s = s.
Proof.
  induction 1 as [|c s Hc Hs IH]; [done|].
  simpl. apply N.eqb_neq in Hc. by rewrite Hc, IH.
Qed.

End DateFormat.

(** X16. The date format: when the read and the parse succeed and the
    date value is [Y:M:D], a space and anything behind it, with no colon
    and no space inside [Y], [M] and [D], [dateTaken] is [Y-M-D]. *)
Theorem dateTaken_of_exif_date {TFile : Type}
    (readBinary : TFile -> js_error + list byte)
    (piexif_load : jsstring -> js_error + ExifDict)
    (file : TFile) (bytes : list byte) (exifObj : ExifDict)
    (year month day time : jsstring) :
  readBinary file = inr bytes ->
  piexif_load (dataUrl_of bytes) = inr exifObj ->
  Forall (fun c => c <> 58%N /\ c <> 32%N) (year ++ month ++ day) ->
  Exif_tag exifObj ExifIFD.DateTimeOriginal
  = Some (JString (year ++ [58%N] ++ month ++ [58%N] ++ day ++ [32%N] ++ time)) ->
  dateTaken (extractExifDateAndFilename readBinary piexif_load file).1
  = year ++ [45%N] ++ month ++ [45%N] ++ day.
Proof.
  intros H1 H2 Hplain Hd.
  rewrite (extract_loaded _ _ _ _ _ H1 H2), (read_tags_string _ _ _ Hd).
  cbn [fst dateTaken].
  assert (nonempty (year ++ [58%N] ++ month ++ [58%N] ++ day ++ [32%N] ++ time) = true)
    as -> by by destruct year.
  apply Forall_app in Hplain as [Hy [Hm Hday]%Forall_app].
  replace (year ++ [58%N] ++ month ++ [58%N] ++ day ++ [32%N] ++ time)
    with ((year ++ [58%N] ++ month ++ [58%N] ++ day) ++ 32%N :: time)
    by by rewrite <- !app_assoc.
  rewrite before_first_app.
  - unfold replace_char. rewrite !map_app.
    fold (replace_char 58 45 year) (replace_char 58 45 month) (replace_char 58 45 day).
    rewrite !replace_char_keeps; [done | | |];
      (eapply Forall_impl; [eassumption|]; by intros c [? ?]).
  - repeat (apply Forall_app; split); try (by repeat constructor);
      (eapply Forall_impl; [eassumption|]; by intros c [? ?]).
Qed.

Lemma dateTaken_of_exif_date_witness :
  dateTaken (extractExifDateAndFilename (Examples.file_of [])
               (Examples.loads Examples.photo) tt).1
  = lit "2021" ++ [45%N] ++ lit "07" ++ [45%N] ++ lit "04".
Proof.
  apply (dateTaken_of_exif_date (Examples.file_of []) (Examples.loads Examples.photo)
           tt [] Examples.photo (lit "2021") (lit "07") (lit "04") (lit "10:00:00")).
  - reflexivity.
  - reflexivity.
  - vm_compute. repeat constructor; discriminate.
  - vm_compute. reflexivity.
Defined.
